(** * Angulator: an in-process mediator for Angular

    A shallow embedding of [mediator.service.ts] (request dispatch through a
    chain of pipeline behaviors, notification fan-out) and of
    [mediator.providers.ts] (the registry builder [provideMediator]),
    together with the properties the specification states about them.

    JavaScript effects are made explicit: a computation is a function from
    a world to a completion (normal or abrupt) and a new world.  The world
    holds the application state handlers and behaviors may touch and a log
    of the calls the mediator makes on its collaborators (the injector and
    the handler instances), in the manner of the spies of the test suite. *)

From stdpp Require Import gmap strings list fin_maps.

Set Default Proof Using "Type".

(** ** Classes and instances *)

(** A class (constructor function).  Two classes are the same object iff
    the records are equal; [name] is the [Function.prototype.name] read by
    the error message of [getHandler]. *)
Record Class := mkClass { class_id : positive; name : string }.

#[global] Instance Class_eq_dec : EqDecision Class.
Proof. solve_decision. Defined.

#[global] Instance Class_countable : Countable Class.
Proof.
  refine (inj_countable' (fun c => (class_id c, name c))
                         (fun p => mkClass p.1 p.2) _).
  by intros [].
Defined.

(** An object created by [new C(...)]: requests and notifications are
    marker interfaces, so all the mediator ever reads is [constructor];
    [ref] stands for the identity of the object. *)
Record Instance := mkInstance { constructor : Class; ref : nat }.

(** [new Error(message)] *)
Inductive JsError := Error (message : string).

Section Values.
Context {T : Type}.

(** The eventual state of a [Promise<T>]. *)
Inductive PromiseState :=
| Fulfilled (value : T)
| Rejected (reason : JsError)
| Pending.

(** How the notifications of an [Observable<T>] end. *)
Inductive Termination :=
| Complete
| Errored (reason : JsError)
| Unterminated.

(** An rxjs [Observable<T>], by the notifications a subscriber receives:
    the [next] values in order, then the termination.  Subscribing has no
    effect of its own, as with the observables [of] and [from] make. *)
Record Observable := mkObservable { emitted : list T; termination : Termination }.

(** What [handle] may return: [Observable<T> | Promise<T> | T]. *)
Inductive JsValue :=
| Plain (value : T)
| PromiseOf (p : PromiseState)
| ObservableOf (o : Observable).

Definition isObservable (x : JsValue) : bool :=
  match x with ObservableOf _ => true | _ => false end.

Definition instanceofPromise (x : JsValue) : bool :=
  match x with PromiseOf _ => true | _ => false end.

(** rxjs [of(value)] *)
Definition rx_of (value : T) : Observable :=
  {| emitted := [value]; termination := Complete |}.

(** rxjs [from(promise)] *)
Definition rx_from (p : PromiseState) : Observable :=
  match p with
  | Fulfilled value => {| emitted := [value]; termination := Complete |}
  | Rejected reason => {| emitted := []; termination := Errored reason |}
  | Pending => {| emitted := []; termination := Unterminated |}
  end.

(** Subscribing to something that is no observable. *)
Definition NotSubscribable : JsError := Error "source.subscribe is not a function".
(** rxjs [EmptyError] *)
Definition EmptyError : JsError := Error "no elements in sequence".

(** rxjs [firstValueFrom(source)]: the first value, or the error that
    ends the sequence before one, or [EmptyError] on an empty one. *)
Definition firstValueFrom (source : JsValue) : PromiseState :=
  match source with
  | ObservableOf o =>
      match emitted o, termination o with
      | value :: _, _ => Fulfilled value
      | [], Complete => Rejected EmptyError
      | [], Errored reason => Rejected reason
      | [], Unterminated => Pending
      end
  | _ => Rejected NotSubscribable
  end.
End Values.

Arguments PromiseState : clear implicits.
Arguments Observable : clear implicits.
Arguments JsValue : clear implicits.

(** ** Computations *)

Section Effects.
Context {U : Type}.

(** A call of the mediator on one of its collaborators. *)
Inductive Call :=
| InjectorGet (token : Class)
| Handle (handlerType : Class) (argument : Instance).

Record World := mkWorld { calls : list Call; app : U }.

Inductive Completion (A : Type) :=
| Normal (a : A)
| Throw (e : JsError).
#[global] Arguments Normal {A} a.
#[global] Arguments Throw {A} e.

Definition M (A : Type) : Type := World -> Completion A * World.

Definition ret {A} (a : A) : M A := fun w => (Normal a, w).

Definition throw {A} (e : JsError) : M A := fun w => (Throw e, w).

Definition bind {A B} (c : M A) (k : A -> M B) : M B :=
  fun w =>
    match c w with
    | (Normal a, w') => k a w'
    | (Throw e, w') => (Throw e, w')
    end.

Definition spy (c : Call) : M unit :=
  fun w => (Normal tt, {| calls := calls w ++ [c]; app := app w |}).

(** A computation that only touches the application state. *)
Definition effect {A} (f : U -> Completion A * U) : M A :=
  fun w => let '(r, u) := f (app w) in (r, {| calls := calls w; app := u |}).

(** [Array.prototype.forEach]: the callback runs on the elements in index
    order; an exception leaves the loop. *)
Fixpoint forEach {A} (l : list A) (callback : A -> M unit) : M unit :=
  match l with
  | [] => ret tt
  | x :: l' => bind (callback x) (fun _ => forEach l' callback)
  end.
End Effects.

Arguments World : clear implicits.
Arguments M : clear implicits.

Declare Scope js_scope.
Delimit Scope js_scope with js.
Notation "x <- c ;; k" := (bind c (fun x => k))
  (at level 100, c at next level, right associativity) : js_scope.
Notation "c ;;; k" := (bind c (fun _ => k))
  (at level 100, right associativity) : js_scope.
Open Scope js_scope.

(** [Array.prototype.reduceRight(callback, initialValue)]: the accumulator
    starts at [initialValue] and the indices are visited from [length - 1]
    down to [0]. *)
Fixpoint reduceRight_below {A B} (callback : B -> A -> B) (l : list A) (k : nat) (acc : B) : B :=
  match k with
  | 0 => acc
  | S k' =>
      match l !! k' with
      | Some x => reduceRight_below callback l k' (callback acc x)
      | None => reduceRight_below callback l k' acc
      end
  end.

Definition reduceRight {A B} (callback : B -> A -> B) (l : list A) (initialValue : B) : B :=
  reduceRight_below callback l (length l) initialValue.

(** ** The mediator service *)

Section Service.
Context {T U : Type}.

(** [RequestHandlerDelegate<TResponse> = () => TResponse] *)
Definition RequestHandlerDelegate : Type := unit -> M U (JsValue T).

(** A handler instance ([IRequestHandler] or [INotificationHandler]): an
    object of class [handler_class] with one method [handle]. *)
Record Handler := mkHandler {
  handler_class : Class;
  handler_handle : Instance -> M U (JsValue T)
}.

Record IPipelineBehavior := mkBehavior {
  behavior_handle : Instance -> RequestHandlerDelegate -> M U (JsValue T)
}.

(** The constructor parameters of [Mediator].  [pipelineBehaviors] is
    [@Optional()]: [None] is the [null] Angular injects when the token has
    no provider.  [injector] lists the providers the host knows. *)
Record Mediator := mkMediator {
  requestHandlerMap : gmap Class Class;
  notificationHandlerMap : gmap Class (list Class);
  pipelineBehaviors : option (list IPipelineBehavior);
  injector : Class -> option Handler
}.

(** Angular's [NullInjectorError]. *)
Definition NullInjectorError (token : Class) : JsError :=
  Error ("No provider for " +:+ name token +:+ "!").

(** [this.injector.get(token)] *)
Definition injector_get (this : Mediator) (token : Class) : M U Handler :=
  spy (InjectorGet token) ;;;
  match injector this token with
  | Some instance => ret instance
  | None => throw (NullInjectorError token)
  end.

(** [handler.handle(argument)] *)
Definition call_handle (handler : Handler) (argument : Instance) : M U (JsValue T) :=
  spy (Handle (handler_class handler) argument) ;;;
  handler_handle handler argument.

Definition HandlerNotFound (request : Instance) : JsError :=
  Error ("No handler found for request: " +:+ name (constructor request)).

Definition getHandler (this : Mediator) (request : Instance) : M U Handler :=
  match requestHandlerMap this !! constructor request with
  | None => throw (HandlerNotFound request)
  | Some handlerType => injector_get this handlerType
  end.

(** [(this.pipelineBehaviors || []).reduceRight((next, behavior) =>
    () => behavior.handle(request, next), handle)] *)
Definition compose (this : Mediator) (request : Instance)
    (handle : RequestHandlerDelegate) : RequestHandlerDelegate :=
  reduceRight
    (fun (next : RequestHandlerDelegate) (behavior : IPipelineBehavior) =>
       fun _ : unit => behavior_handle behavior request next)
    (default [] (pipelineBehaviors this))
    handle.

(** The callback of the [forEach] in [publish]. *)
Definition notify (this : Mediator) (notification : Instance) (handlerType : Class)
    : M U unit :=
  handler <- injector_get this handlerType ;;
  call_handle handler notification ;;;
  ret tt.

Definition send (this : Mediator) (request : Instance) : M U (JsValue T) :=
  handler <- getHandler this request ;;
  let handle : RequestHandlerDelegate := fun _ =>
    result <- call_handle handler request ;;
    match result with
    | ObservableOf _ => ret result
    | PromiseOf p => ret (ObservableOf (rx_from p))
    | Plain value => ret (ObservableOf (rx_of value))
    end in
  let pipeline := compose this request handle in
  pipeline tt.

(** An [async] function never throws: an exception of its body rejects
    the promise it returns, and [return await p] settles it as [p]. *)
Definition async (body : M U (PromiseState T)) : M U (JsValue T) :=
  fun w =>
    match body w with
    | (Normal p, w') => (Normal (PromiseOf p), w')
    | (Throw e, w') => (Normal (PromiseOf (Rejected e)), w')
    end.

Definition sendAsync (this : Mediator) (request : Instance) : M U (JsValue T) :=
  async (source <- send this request ;; ret (firstValueFrom source)).

Definition SynchronousContractViolation : JsError :=
  Error "sendSimple can only be used with synchronous handlers".

Definition sendSimple (this : Mediator) (request : Instance) : M U (JsValue T) :=
  handler <- getHandler this request ;;
  let handle : RequestHandlerDelegate := fun _ => call_handle handler request in
  let pipeline := compose this request handle in
  result <- pipeline tt ;;
  if isObservable result || instanceofPromise result
  then throw SynchronousContractViolation
  else ret result.

Definition publish (this : Mediator) (notification : Instance) : M U unit :=
  match notificationHandlerMap this !! constructor notification with
  | Some handlerTypes =>
      forEach handlerTypes (notify this notification)
  | None => ret tt
  end.
End Service.

Arguments Handler : clear implicits.
Arguments IPipelineBehavior : clear implicits.
Arguments Mediator : clear implicits.
Arguments RequestHandlerDelegate : clear implicits.

(** ** Decorators and the registry builder *)

Definition REQUEST_HANDLER_METADATA_KEY : string := "RequestHandlerMetadata".
Definition NOTIFICATION_HANDLER_METADATA_KEY : string := "NotificationHandlerMetadata".

Module Reflect.
(** What [reflect-metadata] reads: its side table of own metadata
    (metadata key and target class to metadata value) and the prototype
    links of the classes ([class C extends B] makes [B] the prototype of
    [C]). *)
Record Store := mkStore {
  own : gmap (string * Class) Class;
  prototypeOf : gmap Class Class
}.

(** No metadata, no class with a superclass. *)
Definition initial : Store := {| own := ∅; prototypeOf := ∅ |}.

(** [class child extends parent] *)
Definition extends (child parent : Class) (store : Store) : Store :=
  {| own := own store; prototypeOf := <[child := parent]> (prototypeOf store) |}.

Definition defineMetadata (metadataKey : string) (metadataValue target : Class)
    (store : Store) : Store :=
  {| own := <[(metadataKey, target) := metadataValue]> (own store);
     prototypeOf := prototypeOf store |}.

(** [OrdinaryGetMetadata]: the own metadata of the target if it has any,
    else what its prototype gives, and so on up the chain, for at most
    [depth] links. *)
Fixpoint getMetadataWithin (depth : nat) (metadataKey : string) (target : Class)
    (store : Store) : option Class :=
  match own store !! (metadataKey, target) with
  | Some metadataValue => Some metadataValue
  | None =>
      match depth with
      | 0 => None
      | S depth' =>
          match prototypeOf store !! target with
          | Some parent => getMetadataWithin depth' metadataKey parent store
          | None => None
          end
      end
  end.

(** A prototype chain has no cycle, so it has no more links than there
    are classes with a superclass. *)
Definition getMetadata (metadataKey : string) (target : Class) (store : Store)
    : option Class :=
  getMetadataWithin (size (prototypeOf store)) metadataKey target store.

(** The target, its prototype, the prototype of that, and so on, for at
    most [depth] links. *)
Fixpoint chainWithin (depth : nat) (target : Class) (store : Store) : list Class :=
  target ::
    match depth with
    | 0 => []
    | S depth' =>
        match prototypeOf store !! target with
        | Some parent => chainWithin depth' parent store
        | None => []
        end
    end.

Definition prototypeChain (target : Class) (store : Store) : list Class :=
  chainWithin (size (prototypeOf store)) target store.
End Reflect.

(** [@RequestHandler(request) class target] *)
Definition RequestHandler (request target : Class) (store : Reflect.Store) : Reflect.Store :=
  Reflect.defineMetadata REQUEST_HANDLER_METADATA_KEY request target store.

(** [@NotificationHandler(notification) class target] *)
Definition NotificationHandler (notification target : Class) (store : Reflect.Store)
    : Reflect.Store :=
  Reflect.defineMetadata NOTIFICATION_HANDLER_METADATA_KEY notification target store.

(** The request type, and the notification type, a class was decorated
    with. *)
Abbreviation requestOf store handler :=
  (Reflect.getMetadata REQUEST_HANDLER_METADATA_KEY handler store).
Abbreviation notificationOf store handler :=
  (Reflect.getMetadata NOTIFICATION_HANDLER_METADATA_KEY handler store).

Inductive InjectionToken :=
| REQUEST_HANDLER_MAP
| PIPELINE_BEHAVIORS
| NOTIFICATION_HANDLER_MAP.

#[global] Instance InjectionToken_eq_dec : EqDecision InjectionToken.
Proof. solve_decision. Defined.

Inductive ProvidedValue :=
| RequestMap (handlerMap : gmap Class Class)
| NotificationMap (notificationHandlerMap : gmap Class (list Class)).

(** Angular's [Provider]: a class, or [{ provide: token, useValue }]. *)
Inductive Provider :=
| TypeProvider (type : Class)
| ValueProvider (provide : InjectionToken) (useValue : ProvidedValue).

(** The class [Mediator] itself, as listed among the providers. *)
Definition MediatorClass : Class := mkClass 1 "Mediator".

Section Providers.
Variable store : Reflect.Store.

(** The two local maps of [provideMediator]. *)
Definition Registries : Type := gmap Class Class * gmap Class (list Class).

(** The body of the [handlers.forEach] callback. *)
Definition registerHandler (maps : Registries) (handler : Class) : Registries :=
  let '(handlerMap, notificationHandlerMap) := maps in
  let handlerMap :=
    match Reflect.getMetadata REQUEST_HANDLER_METADATA_KEY handler store with
    | Some request => <[request := handler]> handlerMap
    | None => handlerMap
    end in
  let notificationHandlerMap :=
    match Reflect.getMetadata NOTIFICATION_HANDLER_METADATA_KEY handler store with
    | Some notification =>
        let existing := default [] (notificationHandlerMap !! notification) in
        <[notification := existing ++ [handler]]> notificationHandlerMap
    | None => notificationHandlerMap
    end in
  (handlerMap, notificationHandlerMap).

Definition registries (handlers : list Class) : Registries :=
  fold_left registerHandler handlers (∅, ∅).

Definition provideMediator (handlers : list Class) : list Provider :=
  let '(handlerMap, notificationHandlerMap) := registries handlers in
  [TypeProvider MediatorClass]
    ++ (TypeProvider <$> handlers)
    ++ [ValueProvider REQUEST_HANDLER_MAP (RequestMap handlerMap);
        ValueProvider NOTIFICATION_HANDLER_MAP (NotificationMap notificationHandlerMap)].
End Providers.

(** [providers.find(p => p.provide === token).useValue], as the tests and
    the injector read the registries back. *)
Fixpoint useValueOf (token : InjectionToken) (providers : list Provider) : option ProvidedValue :=
  match providers with
  | [] => None
  | TypeProvider _ :: rest => useValueOf token rest
  | ValueProvider provide useValue :: rest =>
      if decide (provide = token) then Some useValue else useValueOf token rest
  end.

(** The request-handler registry a provider list holds. *)
Definition providedRequestHandler (providers : list Provider) (request : Class) : option Class :=
  match useValueOf REQUEST_HANDLER_MAP providers with
  | Some (RequestMap handlerMap) => handlerMap !! request
  | _ => None
  end.

(** The notification-handler registry a provider list holds. *)
Definition providedNotificationHandlers (providers : list Provider) (notification : Class)
    : option (list Class) :=
  match useValueOf NOTIFICATION_HANDLER_MAP providers with
  | Some (NotificationMap notificationHandlerMap) => notificationHandlerMap !! notification
  | _ => None
  end.

(** ** The earlier [send] *)

(** [mediator.service.ts] before [getHandler] was split off: the lookup
    and the resolution are written out in [send]. *)
Module Inlined.
Section Service.
Context {T U : Type}.

Definition send (this : Mediator T U) (request : Instance) : M U (JsValue T) :=
  match requestHandlerMap this !! constructor request with
  | None =>
      throw (Error ("No handler found for request: " +:+ name (constructor request)))
  | Some handlerType =>
      handler <- injector_get this handlerType ;;
      let handle : RequestHandlerDelegate T U := fun _ =>
        result <- call_handle handler request ;;
        match result with
        | ObservableOf _ => ret result
        | PromiseOf p => ret (ObservableOf (rx_from p))
        | Plain value => ret (ObservableOf (rx_of value))
        end in
      let pipeline := compose this request handle in
      pipeline tt
  end.
End Service.
End Inlined.

(** ** The schematics *)

(** Paths are strings of 8-bit characters, one per code unit. *)
Module Schematics.
(** [String.prototype.endsWith(searchString)] *)
Definition endsWith (s searchString : string) : bool :=
  let len := String.length s in
  let searchLength := String.length searchString in
  if decide (searchLength ≤ len)
  then bool_decide (String.substring (len - searchLength) searchLength s = searchString)
  else false.

(** [String.prototype.slice(start, end)]: a negative index counts from
    the end of the string. *)
Definition slice (s : string) (start end_ : Z) : string :=
  let len := Z.of_nat (String.length s) in
  let from := if decide (start < 0)%Z then Z.max (len + start) 0 else Z.min start len in
  let to := if decide (end_ < 0)%Z then Z.max (len + end_) 0 else Z.min end_ len in
  String.substring (Z.to_nat from) (Z.to_nat (Z.max (to - from) 0)) s.

(** What the callback of [tree.visit] asks of the tree for one path:
    [Some newPath] for [tree.rename(path, newPath)], [None] for nothing.
    The rule is the same in the [query] and the [command] schematic. *)
Definition renameTemplate (path : string) : option string :=
  if endsWith path ".template"
  then Some (slice path 0 (- Z.of_nat (String.length ".template")))
  else None.
End Schematics.

(** The calls [publish] makes for a list of handler classes that the
    injector resolves to instances of the classes asked for. *)
Definition published (notification : Instance) (handlerTypes : list Class) : list Call :=
  flat_map (fun handlerType => [InjectorGet handlerType; Handle handlerType notification])
           handlerTypes.

(** The classes a provider list registers, in order. *)
Definition providedTypes (providers : list Provider) : list Class :=
  omap (fun provider =>
          match provider with
          | TypeProvider type => Some type
          | ValueProvider _ _ => None
          end) providers.

(** ** Behaviors that wrap their continuation *)

Section Wrapping.
Context {T U : Type}.

(** What a wrapping behavior does to the application state before and
    after it calls [next]. *)
Record Wrap := mkWrap {
  before : Instance → U → U;
  after : Instance → U → U
}.

(** The behavior
    [{ handle: (req, next) => { before; const result = next(); after; return result; } }],
    the shape of [behavior1] and [behavior2] of the test suite. *)
Definition around (x : Wrap) : IPipelineBehavior T U :=
  mkBehavior (fun request next =>
    effect (fun u => (Normal tt, before x request u)) ;;;
    result <- next tt ;;
    effect (fun u => (Normal tt, after x request u)) ;;;
    ret result).

(** [behaviors] (the injected value, possibly [null]) behave as the
    wrapping behaviors of [wraps], one by one. *)
Definition Wrapped (behaviors : option (list (IPipelineBehavior T U)))
    (wraps : list Wrap) : Prop :=
  Forall2
    (fun behavior x => ∀ request next w,
       behavior_handle behavior request next w
       = behavior_handle (around x) request next w)
    (default [] behaviors) wraps.

(** The application state once every [before] has run, outermost first. *)
Definition befores (request : Instance) (wraps : list Wrap) (u : U) : U :=
  fold_left (fun u x => before x request u) wraps u.

(** The application state once every [after] has run, innermost first. *)
Definition afters (request : Instance) (wraps : list Wrap) (u : U) : U :=
  foldr (fun x u => after x request u) u wraps.

(** The chain [B1(next = B2(next = ... handle))]. *)
Definition nest (request : Instance) (behaviors : list (IPipelineBehavior T U))
    (handle : RequestHandlerDelegate T U) : RequestHandlerDelegate T U :=
  foldr (fun behavior next => fun _ : unit => behavior_handle behavior request next)
        handle behaviors.

(** The world in which the pipeline starts: [getHandler] has resolved
    the handler class. *)
Definition resolved (handlerType : Class) (w : World U) : World U :=
  {| calls := calls w ++ [InjectorGet handlerType]; app := app w |}.

(** The world in which the body of the handler starts, behind wrapping
    behaviors. *)
Definition entered (handlerType : Class) (handler : Handler T U) (argument : Instance)
    (wraps : list Wrap) (w : World U) : World U :=
  {| calls := calls w ++ [InjectorGet handlerType; Handle (handler_class handler) argument];
     app := befores argument wraps (app w) |}.

(** The world the wrapping behaviors leave, from the one the handler
    left. *)
Definition returned (request : Instance) (wraps : list Wrap) (w : World U) : World U :=
  {| calls := calls w; app := afters request wraps (app w) |}.

(** What the inner [handle] closure of [send] makes of a handler result. *)
Definition normalized (result : JsValue T) : JsValue T :=
  match result with
  | ObservableOf _ => result
  | PromiseOf p => ObservableOf (rx_from p)
  | Plain value => ObservableOf (rx_of value)
  end.
(** *** Behaviors that call their continuation *)

(** What a behavior that calls [next] once does around the call: the
    world in which it calls [next], from the world it was called in; the
    world in which it returns the result of [next], from the world it was
    called in, that result and the world [next] left; the world in which
    it lets an exception of [next] go on, likewise. *)
Record Passage := mkPassage {
  enter : Instance → World U → World U;
  leave : Instance → World U → JsValue T → World U → World U;
  escape : Instance → World U → JsError → World U → World U
}.

(** Each of [behaviors] (the injected value, possibly [null]) calls its
    continuation as its passage says and, when the continuation returns a
    result, returns that result. *)
Definition Returns (behaviors : option (list (IPipelineBehavior T U)))
    (passages : list Passage) : Prop :=
  Forall2
    (fun behavior x => ∀ request next w result w',
       next tt (enter x request w) = (Normal result, w') →
       behavior_handle behavior request next w
       = (Normal result, leave x request w result w'))
    (default [] behaviors) passages.

(** Each of [behaviors] calls its continuation as its passage says and,
    when the continuation throws, throws the same error. *)
Definition Rethrows (behaviors : option (list (IPipelineBehavior T U)))
    (passages : list Passage) : Prop :=
  Forall2
    (fun behavior x => ∀ request next w e w',
       next tt (enter x request w) = (Throw e, w') →
       behavior_handle behavior request next w
       = (Throw e, escape x request w e w'))
    (default [] behaviors) passages.

(** The world in which the innermost continuation is called. *)
Fixpoint entering (request : Instance) (passages : list Passage) (w : World U) : World U :=
  match passages with
  | [] => w
  | x :: passages' => entering request passages' (enter x request w)
  end.

(** The world in which the outermost behavior returns [result]. *)
Fixpoint leaving (request : Instance) (passages : list Passage) (w : World U)
    (result : JsValue T) (w' : World U) : World U :=
  match passages with
  | [] => w'
  | x :: passages' =>
      leave x request w result (leaving request passages' (enter x request w) result w')
  end.

(** The world in which the outermost behavior throws [e]. *)
Fixpoint escaping (request : Instance) (passages : list Passage) (w : World U)
    (e : JsError) (w' : World U) : World U :=
  match passages with
  | [] => w'
  | x :: passages' =>
      escape x request w e (escaping request passages' (enter x request w) e w')
  end.

(** The world in which the body of the handler starts, behind such
    behaviors. *)
Definition called (handlerType : Class) (handler : Handler T U) (request : Instance)
    (passages : list Passage) (w : World U) : World U :=
  let w1 := entering request passages (resolved handlerType w) in
  {| calls := calls w1 ++ [Handle (handler_class handler) request]; app := app w1 |}.
(** A wrapping behavior, as a behavior that calls its continuation. *)
Definition passageOf (x : Wrap) : Passage :=
  {| enter := fun request w => {| calls := calls w; app := before x request (app w) |};
     leave := fun request _ _ w' => {| calls := calls w'; app := after x request (app w') |};
     escape := fun _ _ _ w' => w' |}.
End Wrapping.

Arguments Wrap : clear implicits.
Arguments Passage : clear implicits.

(** ** The classes of [mediator.providers.spec.ts] *)

Module ProvidersSpec.
Definition TestRequest : Class := mkClass 10 "TestRequest".
Definition AnotherTestRequest : Class := mkClass 11 "AnotherTestRequest".
Definition TestNotification : Class := mkClass 12 "TestNotification".
Definition AnotherTestNotification : Class := mkClass 13 "AnotherTestNotification".
Definition TestRequestHandler : Class := mkClass 14 "TestRequestHandler".
Definition AnotherTestRequestHandler : Class := mkClass 15 "AnotherTestRequestHandler".
Definition TestNotificationHandler : Class := mkClass 16 "TestNotificationHandler".
Definition AnotherTestNotificationHandler : Class :=
  mkClass 17 "AnotherTestNotificationHandler".
Definition YetAnotherNotificationHandler : Class :=
  mkClass 18 "YetAnotherNotificationHandler".
Definition NonHandlerClass : Class := mkClass 19 "NonHandlerClass".

(** Two classes the test file does not have: a second handler declared
    for [TestRequest], and a handler decorated with both decorators. *)
Definition RivalTestRequestHandler : Class := mkClass 20 "RivalTestRequestHandler".
Definition TwofoldHandler : Class := mkClass 21 "TwofoldHandler".

(** The metadata the [beforeAll] block defines, then that of the two
    extra classes. *)
Definition store : Reflect.Store :=
  NotificationHandler AnotherTestNotification TwofoldHandler
    (RequestHandler AnotherTestRequest TwofoldHandler
      (RequestHandler TestRequest RivalTestRequestHandler
        (NotificationHandler AnotherTestNotification YetAnotherNotificationHandler
          (NotificationHandler TestNotification AnotherTestNotificationHandler
            (NotificationHandler TestNotification TestNotificationHandler
              (RequestHandler AnotherTestRequest AnotherTestRequestHandler
                (RequestHandler TestRequest TestRequestHandler Reflect.initial))))))).

(** A class the test file lacks: an undecorated subclass of
    [TestRequestHandler]. *)
Definition DerivedRequestHandler : Class := mkClass 22 "DerivedRequestHandler".

Definition derived : Reflect.Store :=
  Reflect.extends DerivedRequestHandler TestRequestHandler store.

(** The input of the test on a mix of handlers. *)
Definition handlers : list Class :=
  [TestRequestHandler; AnotherTestRequestHandler; TestNotificationHandler;
   AnotherTestNotificationHandler; YetAnotherNotificationHandler; NonHandlerClass].
End ProvidersSpec.

(** ** The mocks of [mediator.service.spec.ts] *)

Module MediatorSpec.
(** Responses are strings; notification handlers return [undefined]. *)
Inductive Value := undefined | str (s : string).

(** The application state is the array [callOrder]. *)
Abbreviation CallOrder := (list string).

Definition SyncRequest : Class := mkClass 30 "SyncRequest".
Definition AsyncObservableRequest : Class := mkClass 31 "AsyncObservableRequest".
Definition AsyncPromiseRequest : Class := mkClass 32 "AsyncPromiseRequest".
Definition UnhandledRequest : Class := mkClass 33 "UnhandledRequest".
Definition TestNotification : Class := mkClass 34 "TestNotification".
Definition AnotherNotification : Class := mkClass 35 "AnotherNotification".
Definition SyncRequestHandler : Class := mkClass 36 "SyncRequestHandler".
Definition AsyncObservableRequestHandler : Class :=
  mkClass 37 "AsyncObservableRequestHandler".
Definition AsyncPromiseRequestHandler : Class := mkClass 38 "AsyncPromiseRequestHandler".
Definition TestNotificationHandler : Class := mkClass 39 "TestNotificationHandler".
Definition AnotherTestNotificationHandler : Class :=
  mkClass 40 "AnotherTestNotificationHandler".

Definition push (entry : string) (callOrder : CallOrder) : CallOrder :=
  callOrder ++ [entry].

(** [SyncRequestHandler] under the [callFake] spy of the behavior test. *)
Definition syncRequestHandler : Handler Value CallOrder :=
  mkHandler SyncRequestHandler (fun _ =>
    effect (fun callOrder =>
      (Normal (Plain (str "sync response")), push "handler called" callOrder))).

(** [AsyncObservableRequestHandler] under a spy of the same kind. *)
Definition asyncObservableRequestHandler : Handler Value CallOrder :=
  mkHandler AsyncObservableRequestHandler (fun _ =>
    effect (fun callOrder =>
      (Normal (ObservableOf (rx_of (str "async observable response"))),
       push "handler called" callOrder))).

Definition asyncPromiseRequestHandler : Handler Value CallOrder :=
  mkHandler AsyncPromiseRequestHandler (fun _ =>
    ret (PromiseOf (Fulfilled (str "async promise response")))).

Definition testNotificationHandler : Handler Value CallOrder :=
  mkHandler TestNotificationHandler (fun _ =>
    effect (fun callOrder => (Normal (Plain undefined), push "first" callOrder))).

Definition anotherTestNotificationHandler : Handler Value CallOrder :=
  mkHandler AnotherTestNotificationHandler (fun _ =>
    effect (fun callOrder => (Normal (Plain undefined), push "second" callOrder))).

(** The providers of [TestBed.configureTestingModule]. *)
Definition testBed (token : Class) : option (Handler Value CallOrder) :=
  if decide (token = SyncRequestHandler) then Some syncRequestHandler
  else if decide (token = AsyncObservableRequestHandler)
  then Some asyncObservableRequestHandler
  else if decide (token = AsyncPromiseRequestHandler) then Some asyncPromiseRequestHandler
  else if decide (token = TestNotificationHandler) then Some testNotificationHandler
  else if decide (token = AnotherTestNotificationHandler)
  then Some anotherTestNotificationHandler
  else None.

Definition behavior1 : Wrap CallOrder :=
  {| before := fun _ => push "behavior1 start"; after := fun _ => push "behavior1 end" |}.
Definition behavior2 : Wrap CallOrder :=
  {| before := fun _ => push "behavior2 start"; after := fun _ => push "behavior2 end" |}.

Definition requestHandlers : gmap Class Class :=
  <[SyncRequest := SyncRequestHandler]>
    (<[AsyncObservableRequest := AsyncObservableRequestHandler]>
      (<[AsyncPromiseRequest := AsyncPromiseRequestHandler]> ∅)).

Definition notificationHandlers : gmap Class (list Class) :=
  <[TestNotification := [TestNotificationHandler; AnotherTestNotificationHandler]]> ∅.

(** The mediator with both behaviors pushed to [pipelineBehaviors]. *)
Definition mediator : Mediator Value CallOrder :=
  {| requestHandlerMap := requestHandlers;
     notificationHandlerMap := notificationHandlers;
     pipelineBehaviors := Some [around behavior1; around behavior2];
     injector := testBed |}.

(** The mediator of a host that provides no [PIPELINE_BEHAVIORS]. *)
Definition bare : Mediator Value CallOrder :=
  {| requestHandlerMap := requestHandlers;
     notificationHandlerMap := notificationHandlers;
     pipelineBehaviors := None;
     injector := testBed |}.

(** Two behaviors the test file lacks.  [cache] answers by itself and
    never calls [next]:
    [{ handle: (req, next) => of('cached response') }]. *)
Definition cache : IPipelineBehavior Value CallOrder :=
  mkBehavior (fun _ _ => ret (ObservableOf (rx_of (str "cached response")))).

(** [fallback] replaces a promise by a value at hand:
    [{ handle: (req, next) => { const result = next();
       return result instanceof Promise ? 'pending' : result; } }]. *)
Definition fallback : IPipelineBehavior Value CallOrder :=
  mkBehavior (fun _ next =>
    result <- next tt ;;
    ret (if instanceofPromise result then Plain (str "pending") else result)).

Definition cached : Mediator Value CallOrder :=
  {| requestHandlerMap := requestHandlers;
     notificationHandlerMap := notificationHandlers;
     pipelineBehaviors := Some [cache; around behavior2];
     injector := testBed |}.

Definition lenient : Mediator Value CallOrder :=
  {| requestHandlerMap := requestHandlers;
     notificationHandlerMap := notificationHandlers;
     pipelineBehaviors := Some [fallback];
     injector := testBed |}.

(** A host in which the handler of class [TestNotificationHandler]
    throws, which the test file lacks. *)
Definition failingNotificationHandler : Handler Value CallOrder :=
  mkHandler TestNotificationHandler (fun _ =>
    effect (fun callOrder => (Throw (Error "first failed"), push "first" callOrder))).

Definition faultyBed (token : Class) : option (Handler Value CallOrder) :=
  if decide (token = TestNotificationHandler) then Some failingNotificationHandler
  else testBed token.

Definition faulty : Mediator Value CallOrder :=
  {| requestHandlerMap := requestHandlers;
     notificationHandlerMap := notificationHandlers;
     pipelineBehaviors := None;
     injector := faultyBed |}.

(** A handler of [SyncRequest] that throws, and a host that provides no
    handler at all; the test file has neither. *)
Definition throwingRequestHandler : Handler Value CallOrder :=
  mkHandler SyncRequestHandler (fun _ =>
    effect (fun callOrder => (Throw (Error "handler failed"), push "handler called" callOrder))).

Definition unprovided : Mediator Value CallOrder :=
  {| requestHandlerMap := requestHandlers;
     notificationHandlerMap := notificationHandlers;
     pipelineBehaviors := Some [around behavior1; around behavior2];
     injector := fun _ => None |}.

(** A mediator on the registries [provideMediator] builds from the
    classes of [mediator.providers.spec.ts]. *)
Definition wired : Mediator Value CallOrder :=
  {| requestHandlerMap := (registries ProvidersSpec.store ProvidersSpec.handlers).1;
     notificationHandlerMap := (registries ProvidersSpec.store ProvidersSpec.handlers).2;
     pipelineBehaviors := None;
     injector := fun _ => None |}.

(** What the two notification handlers of [testBed] do to [callOrder]. *)
Definition pushed (handlerType : Class) : CallOrder → CallOrder :=
  if decide (handlerType = TestNotificationHandler) then push "first" else push "second".

(** Two behaviors that return what [next] returns without being of the
    shape of [behavior1].  [logging] looks at the result:
    [{ handle: (req, next) => { const result = next();
       callOrder.push(isObservable(result) ? 'observable' : 'other');
       return result; } }]. *)
Definition logging : IPipelineBehavior Value CallOrder :=
  mkBehavior (fun _ next =>
    result <- next tt ;;
    effect (fun callOrder =>
      (Normal tt, push (if isObservable result then "observable" else "other") callOrder)) ;;;
    ret result).

(** [cleanup] runs its second part whether [next] returns or throws:
    [{ handle: (req, next) => { try { return next(); }
       finally { callOrder.push('finally'); } } }]. *)
Definition cleanup : IPipelineBehavior Value CallOrder :=
  mkBehavior (fun _ next => fun w =>
    let '(completion, w') := next tt w in
    (completion, {| calls := calls w'; app := push "finally" (app w') |})).

Definition loggingPassage : Passage Value CallOrder :=
  {| enter := fun _ w => w;
     leave := fun _ _ result w' =>
       {| calls := calls w';
          app := push (if isObservable result then "observable" else "other") (app w') |};
     escape := fun _ _ _ w' => w' |}.

Definition cleanupPassage : Passage Value CallOrder :=
  {| enter := fun _ w => w;
     leave := fun _ _ _ w' => {| calls := calls w'; app := push "finally" (app w') |};
     escape := fun _ _ _ w' => {| calls := calls w'; app := push "finally" (app w') |} |}.

Definition observed : Mediator Value CallOrder :=
  {| requestHandlerMap := requestHandlers;
     notificationHandlerMap := notificationHandlers;
     pipelineBehaviors := Some [cleanup; logging];
     injector := testBed |}.

(** The same behaviors around the handler that throws. *)
Definition observedBroken : Mediator Value CallOrder :=
  {| requestHandlerMap := requestHandlers;
     notificationHandlerMap := notificationHandlers;
     pipelineBehaviors := Some [cleanup; logging];
     injector := fun token =>
       if decide (token = SyncRequestHandler) then Some throwingRequestHandler
       else testBed token |}.

Definition request (type : Class) : Instance := {| constructor := type; ref := 0 |}.

Definition start : World CallOrder := {| calls := []; app := [] |}.
End MediatorSpec.

(** * Properties *)

(** ** The test suites, replayed *)

Example send_observable_handler :
  (send MediatorSpec.bare (MediatorSpec.request MediatorSpec.AsyncObservableRequest)
     MediatorSpec.start).1
  = Normal (ObservableOf (rx_of (MediatorSpec.str "async observable response"))).
Proof. vm_compute. reflexivity. Qed.

Example send_promise_handler :
  (send MediatorSpec.bare (MediatorSpec.request MediatorSpec.AsyncPromiseRequest)
     MediatorSpec.start).1
  = Normal (ObservableOf {| emitted := [MediatorSpec.str "async promise response"];
                            termination := Complete |}).
Proof. vm_compute. reflexivity. Qed.

Example sendAsync_observable_handler :
  (sendAsync MediatorSpec.bare (MediatorSpec.request MediatorSpec.AsyncObservableRequest)
     MediatorSpec.start).1
  = Normal (PromiseOf (Fulfilled (MediatorSpec.str "async observable response"))).
Proof. vm_compute. reflexivity. Qed.

Example sendAsync_promise_handler :
  (sendAsync MediatorSpec.bare (MediatorSpec.request MediatorSpec.AsyncPromiseRequest)
     MediatorSpec.start).1
  = Normal (PromiseOf (Fulfilled (MediatorSpec.str "async promise response"))).
Proof. vm_compute. reflexivity. Qed.

Example sendSimple_observable_handler :
  (sendSimple MediatorSpec.bare (MediatorSpec.request MediatorSpec.AsyncObservableRequest)
     MediatorSpec.start).1
  = Throw (Error "sendSimple can only be used with synchronous handlers").
Proof. vm_compute. reflexivity. Qed.

Example provideMediator_empty :
  provideMediator ProvidersSpec.store []
  = [TypeProvider MediatorClass;
     ValueProvider REQUEST_HANDLER_MAP (RequestMap ∅);
     ValueProvider NOTIFICATION_HANDLER_MAP (NotificationMap ∅)].
Proof. reflexivity. Qed.

Example provideMediator_mix :
  providedRequestHandler (provideMediator ProvidersSpec.store ProvidersSpec.handlers)
    ProvidersSpec.TestRequest
  = Some ProvidersSpec.TestRequestHandler
  ∧ providedNotificationHandlers
      (provideMediator ProvidersSpec.store ProvidersSpec.handlers)
      ProvidersSpec.AnotherTestNotification
    = Some [ProvidersSpec.YetAnotherNotificationHandler]
  ∧ providedNotificationHandlers
      (provideMediator ProvidersSpec.store ProvidersSpec.handlers)
      ProvidersSpec.TestRequest
    = None.
Proof. repeat split; vm_compute; reflexivity. Qed.

(** ** The registry builder *)

Section RegistryFacts.
Variable store : Reflect.Store.

Lemma registries_snoc handlers handler :
  registries store (handlers ++ [handler])
  = registerHandler store (registries store handlers) handler.
Proof. unfold registries. by rewrite fold_left_app. Qed.

Lemma provided_request handlers request :
  providedRequestHandler (provideMediator store handlers) request
  = (registries store handlers).1 !! request.
Proof.
  unfold providedRequestHandler, provideMediator.
  destruct (registries store handlers) as [hm nm]; simpl.
  induction handlers as [|h hs IH]; simpl; [reflexivity|exact IH].
Qed.

Lemma provided_notification handlers notification :
  providedNotificationHandlers (provideMediator store handlers) notification
  = (registries store handlers).2 !! notification.
Proof.
  unfold providedNotificationHandlers, provideMediator.
  destruct (registries store handlers) as [hm nm]; simpl.
  induction handlers as [|h hs IH]; simpl; [reflexivity|exact IH].
Qed.

(** The request registry binds a request type to the last class of the
    input that declares it. *)
Lemma request_registry_last before handler after request :
  requestOf store handler = Some request →
  Forall (λ h, requestOf store h ≠ Some request) after →
  (registries store (before ++ handler :: after)).1 !! request = Some handler.
Proof.
  intros Hreq. induction after as [|h after IH] using rev_ind; intros Hafter.
  - rewrite registries_snoc.
    destruct (registries store before) as [hm nm]; simpl.
    rewrite Hreq. by rewrite lookup_insert_eq.
  - apply Forall_app in Hafter as [Hafter Hh].
    rewrite Forall_singleton in Hh.
    rewrite app_comm_cons, app_assoc, registries_snoc.
    specialize (IH Hafter).
    destruct (registries store (before ++ handler :: after)) as [hm nm]; simpl in *.
    destruct (requestOf store h) as [r|] eqn:Hr; [|done].
    rewrite lookup_insert_ne; [done|].
    intros ->. by apply Hh.
Qed.

(** The notification registry lists, per notification type, the classes
    of the input that declare it, in input order. *)
Lemma notification_registry_filter handlers notification :
  (registries store handlers).2 !! notification
  = match filter (λ h, notificationOf store h = Some notification) handlers with
    | [] => None
    | declaring => Some declaring
    end.
Proof.
  induction handlers as [|h handlers IH] using rev_ind; [done|].
  rewrite registries_snoc, filter_app.
  destruct (registries store handlers) as [hm nm]; simpl in *.
  destruct (notificationOf store h) as [n|] eqn:Hn.
  - destruct (decide (n = notification)) as [->|Hne].
    + rewrite lookup_insert_eq, IH.
      rewrite (filter_cons_True _ h []); [|done]. rewrite filter_nil.
      by destruct (filter _ handlers).
    + rewrite lookup_insert_ne; [|done].
      rewrite (filter_cons_False _ h []); [|congruence].
      rewrite filter_nil, app_nil_r. exact IH.
  - rewrite (filter_cons_False _ h []); [|congruence].
    rewrite filter_nil, app_nil_r. exact IH.
Qed.
End RegistryFacts.

(** C6.  When two classes of the input declare the same request type, and
    no class after the second declares it, the request-handler map that
    [provideMediator] provides binds the type to the second class: the
    later registration overwrites the earlier one. *)
Theorem duplicate_request_last_wins (store : Reflect.Store)
    (first second request : Class) (before between after : list Class) :
  requestOf store first = Some request →
  requestOf store second = Some request →
  Forall (λ h, requestOf store h ≠ Some request) after →
  providedRequestHandler
    (provideMediator store (before ++ first :: between ++ second :: after)) request
  = Some second.
Proof.
  intros _ Hsecond Hafter.
  rewrite provided_request.
  replace (before ++ first :: between ++ second :: after)
    with ((before ++ first :: between) ++ second :: after)
    by (by rewrite <- app_assoc).
  by apply request_registry_last.
Qed.

Lemma duplicate_request_last_wins_witness :
  providedRequestHandler
    (provideMediator ProvidersSpec.store
       [ProvidersSpec.TestRequestHandler; ProvidersSpec.NonHandlerClass;
        ProvidersSpec.RivalTestRequestHandler; ProvidersSpec.TestNotificationHandler])
    ProvidersSpec.TestRequest
  = Some ProvidersSpec.RivalTestRequestHandler.
Proof.
  apply (duplicate_request_last_wins ProvidersSpec.store
           ProvidersSpec.TestRequestHandler ProvidersSpec.RivalTestRequestHandler
           ProvidersSpec.TestRequest
           [] [ProvidersSpec.NonHandlerClass] [ProvidersSpec.TestNotificationHandler]).
  - vm_compute. reflexivity.
  - vm_compute. reflexivity.
  - constructor; [|constructor]. vm_compute. discriminate.
Defined.

(** C7.  Round trip of registration.  When the request types the input
    classes declare are pairwise distinct, the provided request-handler map
    sends each declared request type to the class that declared it; and the
    provided notification-handler map sends each declared notification type
    to the list of the classes that declared it, in input order. *)
Theorem registration_round_trip (store : Reflect.Store) (handlers : list Class) :
  NoDup (omap (λ h, requestOf store h) handlers) →
  (∀ handler request,
     handler ∈ handlers →
     requestOf store handler = Some request →
     providedRequestHandler (provideMediator store handlers) request = Some handler)
  ∧ (∀ handler notification,
       handler ∈ handlers →
       notificationOf store handler = Some notification →
       providedNotificationHandlers (provideMediator store handlers) notification
       = Some (filter (λ h, notificationOf store h = Some notification) handlers)).
Proof.
  intros Hdistinct. split.
  - intros handler request Hin Hreq.
    apply list_elem_of_split in Hin as (before & after & ->).
    rewrite provided_request. apply request_registry_last; [done|].
    rewrite omap_app in Hdistinct. simpl in Hdistinct. rewrite Hreq in Hdistinct.
    apply NoDup_app in Hdistinct as (_ & _ & Hdistinct).
    apply NoDup_cons in Hdistinct as [Hnotin _].
    apply Forall_forall. intros h Hh Hdecl. apply Hnotin.
    apply list_elem_of_omap. eauto.
  - intros handler notification Hin Hnot.
    rewrite provided_notification, notification_registry_filter.
    assert (handler ∈ filter (λ h, notificationOf store h = Some notification) handlers)
      as Hfiltered by (by apply list_elem_of_filter).
    destruct (filter _ handlers); [|done].
    by apply elem_of_nil in Hfiltered.
Qed.

Lemma registration_round_trip_witness :
  providedRequestHandler
    (provideMediator ProvidersSpec.store ProvidersSpec.handlers)
    ProvidersSpec.AnotherTestRequest
  = Some ProvidersSpec.AnotherTestRequestHandler
  ∧ providedNotificationHandlers
      (provideMediator ProvidersSpec.store ProvidersSpec.handlers)
      ProvidersSpec.TestNotification
    = Some [ProvidersSpec.TestNotificationHandler;
            ProvidersSpec.AnotherTestNotificationHandler].
Proof.
  assert (NoDup (omap (λ h, requestOf ProvidersSpec.store h) ProvidersSpec.handlers))
    as Hdistinct.
  { apply (bool_decide_unpack _). vm_compute. exact I. }
  destruct (registration_round_trip ProvidersSpec.store ProvidersSpec.handlers Hdistinct)
    as [Hrequests Hnotifications].
  split.
  - apply Hrequests; [|vm_compute; reflexivity].
    apply (bool_decide_unpack _). vm_compute. exact I.
  - rewrite (Hnotifications ProvidersSpec.TestNotificationHandler).
    + vm_compute. reflexivity.
    + apply (bool_decide_unpack _). vm_compute. exact I.
    + vm_compute. reflexivity.
Defined.

(** C9.  A class that carries both kinds of metadata is entered into both
    registries by one step of the loop: it becomes the handler of its
    request type and is appended to the list of its notification type.  In
    the provided registries it is listed for the notification type, and it
    is the handler of the request type unless a later class declares that
    type too. *)
Theorem both_metadata_both_registries (store : Reflect.Store)
    (handler request notification : Class) (before after : list Class) :
  requestOf store handler = Some request →
  notificationOf store handler = Some notification →
  (∀ handlerMap notificationHandlerMap,
     registerHandler store (handlerMap, notificationHandlerMap) handler
     = (<[request := handler]> handlerMap,
        <[notification := default [] (notificationHandlerMap !! notification) ++ [handler]]>
          notificationHandlerMap))
  ∧ (∃ declaring,
       providedNotificationHandlers
         (provideMediator store (before ++ handler :: after)) notification
       = Some declaring
       ∧ handler ∈ declaring)
  ∧ (Forall (λ h, requestOf store h ≠ Some request) after →
     providedRequestHandler
       (provideMediator store (before ++ handler :: after)) request
     = Some handler).
Proof.
  intros Hreq Hnot. split; [|split].
  - intros hm nm. simpl. by rewrite Hreq, Hnot.
  - rewrite provided_notification, notification_registry_filter.
    assert (handler ∈ filter (λ h, notificationOf store h = Some notification)
                         (before ++ handler :: after)) as Hfiltered.
    { apply list_elem_of_filter. split; [done|]. set_solver. }
    destruct (filter _ (before ++ handler :: after)) as [|h l] eqn:Hl.
    + by apply elem_of_nil in Hfiltered.
    + eauto.
  - intros Hafter. rewrite provided_request. by apply request_registry_last.
Qed.

Lemma both_metadata_both_registries_witness :
  (∃ declaring,
     providedNotificationHandlers
       (provideMediator ProvidersSpec.store
          [ProvidersSpec.YetAnotherNotificationHandler; ProvidersSpec.TwofoldHandler])
       ProvidersSpec.AnotherTestNotification
     = Some declaring
     ∧ ProvidersSpec.TwofoldHandler ∈ declaring)
  ∧ providedRequestHandler
      (provideMediator ProvidersSpec.store
         [ProvidersSpec.YetAnotherNotificationHandler; ProvidersSpec.TwofoldHandler])
      ProvidersSpec.AnotherTestRequest
    = Some ProvidersSpec.TwofoldHandler.
Proof.
  destruct (both_metadata_both_registries ProvidersSpec.store
              ProvidersSpec.TwofoldHandler ProvidersSpec.AnotherTestRequest
              ProvidersSpec.AnotherTestNotification
              [ProvidersSpec.YetAnotherNotificationHandler] [])
    as (_ & Hnotification & Hrequest).
  - vm_compute. reflexivity.
  - vm_compute. reflexivity.
  - split; [exact Hnotification|]. apply Hrequest. constructor.
Defined.

(** ** The pipeline *)

Section ReduceRight.
Context {A B : Type} (callback : B → A → B).

Lemma reduceRight_below_take (l : list A) (k : nat) (acc : B) :
  reduceRight_below callback l k acc
  = foldr (λ x next, callback next x) acc (take k l).
Proof.
  revert acc. induction k as [|k IH]; intros acc; [by rewrite take_0|].
  simpl. destruct (l !! k) as [x|] eqn:Hk.
  - rewrite IH. erewrite take_S_r by done. by rewrite foldr_app.
  - rewrite IH. apply lookup_ge_None in Hk.
    by rewrite !take_ge by lia.
Qed.

(** Visiting the indices downwards with an accumulator builds the
    right-nested fold. *)
Lemma reduceRight_foldr (l : list A) (initialValue : B) :
  reduceRight callback l initialValue
  = foldr (λ x next, callback next x) initialValue l.
Proof. unfold reduceRight. by rewrite reduceRight_below_take, firstn_all. Qed.
End ReduceRight.

Section PipelineFacts.
Context {T U : Type}.
Implicit Types (this : Mediator T U) (request : Instance).
Implicit Types (handle next : RequestHandlerDelegate T U).
Implicit Types (w : World U) (x : Wrap U) (wraps : list (Wrap U)).

Lemma compose_nest this request handle :
  compose this request handle
  = nest request (default [] (pipelineBehaviors this)) handle.
Proof. unfold compose. by rewrite reduceRight_foldr. Qed.

(** A chain of wrapping behaviors runs every [before], then the
    terminal delegate, then every [after]; an exception of the delegate
    skips the [after]s. *)
Lemma nest_wrapped request behaviors wraps handle w :
  Wrapped (Some behaviors) wraps →
  nest request behaviors handle tt w
  = match handle tt {| calls := calls w; app := befores request wraps (app w) |} with
    | (Normal result, w') =>
        (Normal result, returned request wraps w')
    | (Throw e, w') => (Throw e, w')
    end.
Proof.
  unfold Wrapped, returned; simpl. intros Hwrapped. revert w.
  induction Hwrapped as [|behavior x behaviors wraps Hx _ IH]; intros w.
  - simpl. destruct w as [cs u]; simpl.
    destruct (handle tt _) as [[result|e] [cs' u']]; done.
  - simpl. rewrite Hx. unfold around, bind, effect; simpl.
    rewrite IH; simpl.
    destruct (handle tt _) as [[result|e] [cs' u']]; done.
Qed.

Lemma getHandler_found this request handlerType handler w :
  requestHandlerMap this !! constructor request = Some handlerType →
  injector this handlerType = Some handler →
  getHandler this request w = (Normal handler, resolved handlerType w).
Proof.
  intros Hmap Hinj. unfold getHandler, injector_get, bind, spy. by rewrite Hmap, Hinj.
Qed.

Lemma getHandler_missing this request w :
  requestHandlerMap this !! constructor request = None →
  getHandler this request w = (Throw (HandlerNotFound request), w).
Proof. intros Hmap. unfold getHandler. by rewrite Hmap. Qed.

(** [send] behind wrapping behaviors. *)
Lemma send_wrapped this request handlerType handler wraps w :
  requestHandlerMap this !! constructor request = Some handlerType →
  injector this handlerType = Some handler →
  Wrapped (pipelineBehaviors this) wraps →
  send this request w
  = match handler_handle handler request (entered handlerType handler request wraps w) with
    | (Normal result, w') => (Normal (normalized result), returned request wraps w')
    | (Throw e, w') => (Throw e, w')
    end.
Proof.
  intros Hmap Hinj Hwrapped. unfold send, bind at 1.
  rewrite (getHandler_found _ _ _ _ _ Hmap Hinj), compose_nest.
  rewrite (nest_wrapped _ _ wraps) by exact Hwrapped.
  unfold bind, call_handle, bind, spy, entered, resolved; simpl.
  rewrite <- app_assoc; simpl.
  destruct (handler_handle handler request _) as [[[v|p|o]|e] w']; done.
Qed.

(** [sendSimple] behind wrapping behaviors. *)
Lemma sendSimple_wrapped this request handlerType handler wraps w :
  requestHandlerMap this !! constructor request = Some handlerType →
  injector this handlerType = Some handler →
  Wrapped (pipelineBehaviors this) wraps →
  sendSimple this request w
  = match handler_handle handler request (entered handlerType handler request wraps w) with
    | (Normal (Plain value), w') => (Normal (Plain value), returned request wraps w')
    | (Normal _, w') => (Throw SynchronousContractViolation, returned request wraps w')
    | (Throw e, w') => (Throw e, w')
    end.
Proof.
  intros Hmap Hinj Hwrapped. unfold sendSimple, bind at 1.
  rewrite (getHandler_found _ _ _ _ _ Hmap Hinj), compose_nest.
  unfold bind at 1.
  rewrite (nest_wrapped _ _ wraps) by exact Hwrapped.
  unfold call_handle, bind, spy, entered, resolved; simpl.
  rewrite <- app_assoc; simpl.
  destruct (handler_handle handler request _) as [[[v|p|o]|e] w']; done.
Qed.
End PipelineFacts.

Section PassageFacts.
Context {T U : Type}.
Implicit Types (this : Mediator T U) (request : Instance).
Implicit Types (handle next : RequestHandlerDelegate T U).
Implicit Types (w : World U) (passages : list (Passage T U)).

(** A result of the innermost continuation comes out of a chain of
    behaviors that return what their continuation returns. *)
Lemma nest_returns request behaviors passages handle w result w' :
  Returns (Some behaviors) passages →
  handle tt (entering request passages w) = (Normal result, w') →
  nest request behaviors handle tt w
  = (Normal result, leaving request passages w result w').
Proof.
  unfold Returns; simpl. intros Hreturns. revert w.
  induction Hreturns as [|behavior x behaviors passages Hx _ IH]; intros w Hhandle.
  - exact Hhandle.
  - simpl in *. apply Hx. by apply IH.
Qed.

(** An exception of the innermost continuation comes out of a chain of
    behaviors that let exceptions of their continuation go on. *)
Lemma nest_rethrows request behaviors passages handle w e w' :
  Rethrows (Some behaviors) passages →
  handle tt (entering request passages w) = (Throw e, w') →
  nest request behaviors handle tt w
  = (Throw e, escaping request passages w e w').
Proof.
  unfold Rethrows; simpl. intros Hrethrows. revert w.
  induction Hrethrows as [|behavior x behaviors passages Hx _ IH]; intros w Hhandle.
  - exact Hhandle.
  - simpl in *. apply Hx. by apply IH.
Qed.

(** Wrapping behaviors are among those that return what their
    continuation returns, and among those that let its exceptions go
    on. *)
Lemma Wrapped_Returns (behaviors : option (list (IPipelineBehavior T U)))
    (wraps : list (Wrap U)) :
  Wrapped behaviors wraps →
  Returns behaviors (passageOf <$> wraps) ∧ Rethrows behaviors (passageOf <$> wraps).
Proof.
  unfold Wrapped, Returns, Rethrows. intros Hwrapped.
  induction Hwrapped as [|behavior x bs xs Hx _ [IHreturns IHrethrows]].
  - split; constructor.
  - split; (constructor; [|done]).
    + intros request next w result w' Hnext. rewrite Hx.
      unfold around, bind, effect; simpl in *. by rewrite Hnext.
    + intros request next w e w' Hnext. rewrite Hx.
      unfold around, bind, effect; simpl in *. by rewrite Hnext.
Qed.

Lemma send_returns this request handlerType handler passages w result w' :
  requestHandlerMap this !! constructor request = Some handlerType →
  injector this handlerType = Some handler →
  Returns (pipelineBehaviors this) passages →
  handler_handle handler request (called handlerType handler request passages w)
  = (Normal result, w') →
  send this request w
  = (Normal (normalized result),
     leaving request passages (resolved handlerType w) (normalized result) w').
Proof.
  intros Hmap Hinj Hreturns Hhandle. unfold send, bind at 1.
  rewrite (getHandler_found _ _ _ _ _ Hmap Hinj), compose_nest.
  apply (nest_returns _ _ passages); [exact Hreturns|].
  unfold bind, call_handle, bind, spy. unfold called in Hhandle. simpl in Hhandle.
  rewrite Hhandle. by destruct result.
Qed.

Lemma sendSimple_returns this request handlerType handler passages w result w' :
  requestHandlerMap this !! constructor request = Some handlerType →
  injector this handlerType = Some handler →
  Returns (pipelineBehaviors this) passages →
  handler_handle handler request (called handlerType handler request passages w)
  = (Normal result, w') →
  sendSimple this request w
  = if isObservable result || instanceofPromise result
    then (Throw SynchronousContractViolation,
          leaving request passages (resolved handlerType w) result w')
    else (Normal result, leaving request passages (resolved handlerType w) result w').
Proof.
  intros Hmap Hinj Hreturns Hhandle. unfold sendSimple, bind at 1.
  rewrite (getHandler_found _ _ _ _ _ Hmap Hinj), compose_nest.
  unfold bind at 1.
  rewrite (nest_returns _ _ passages _ _ result w'); [by destruct result|exact Hreturns|].
  unfold call_handle, bind, spy. unfold called in Hhandle. simpl in Hhandle.
  exact Hhandle.
Qed.

Lemma pipeline_rethrows this request handlerType handler passages w e w' :
  requestHandlerMap this !! constructor request = Some handlerType →
  injector this handlerType = Some handler →
  Rethrows (pipelineBehaviors this) passages →
  handler_handle handler request (called handlerType handler request passages w)
  = (Throw e, w') →
  send this request w = (Throw e, escaping request passages (resolved handlerType w) e w')
  ∧ sendSimple this request w
    = (Throw e, escaping request passages (resolved handlerType w) e w').
Proof.
  intros Hmap Hinj Hrethrows Hhandle. unfold called in Hhandle. simpl in Hhandle.
  split.
  - unfold send, bind at 1.
    rewrite (getHandler_found _ _ _ _ _ Hmap Hinj), compose_nest.
    apply (nest_rethrows _ _ passages); [exact Hrethrows|].
    unfold bind, call_handle, bind, spy. by rewrite Hhandle.
  - unfold sendSimple, bind at 1.
    rewrite (getHandler_found _ _ _ _ _ Hmap Hinj), compose_nest.
    unfold bind at 1.
    rewrite (nest_rethrows _ _ passages _ _ e w'); [done|exact Hrethrows|].
    unfold call_handle, bind, spy. by rewrite Hhandle.
Qed.
End PassageFacts.

(** ** Dispatch of requests *)

(** C1, as the code has it.  Let the request type be mapped to a handler
    class the injector resolves, and let every registered behavior (if
    any) call its continuation once, after logic that does not throw, and
    return the result of the continuation when it returns one; what a
    behavior does besides, reading the result and a [finally] part
    included, is free.  When the handler returns the immediate value
    [value], [send] returns an observable that emits [value] once and
    completes, [sendAsync] returns a promise fulfilled with [value], and
    [sendSimple] returns [value] itself. *)
Theorem synchronous_handler_value {T U : Type} (this : Mediator T U) (request : Instance)
    (handlerType : Class) (handler : Handler T U) (passages : list (Passage T U))
    (value : T) (w w' : World U) :
  requestHandlerMap this !! constructor request = Some handlerType →
  injector this handlerType = Some handler →
  Returns (pipelineBehaviors this) passages →
  handler_handle handler request (called handlerType handler request passages w)
  = (Normal (Plain value), w') →
  send this request w
  = (Normal (ObservableOf {| emitted := [value]; termination := Complete |}),
     leaving request passages (resolved handlerType w) (ObservableOf (rx_of value)) w')
  ∧ sendAsync this request w
    = (Normal (PromiseOf (Fulfilled value)),
       leaving request passages (resolved handlerType w) (ObservableOf (rx_of value)) w')
  ∧ sendSimple this request w
    = (Normal (Plain value),
       leaving request passages (resolved handlerType w) (Plain value) w').
Proof.
  intros Hmap Hinj Hreturns Hhandle.
  pose proof (send_returns _ _ _ _ _ _ _ _ Hmap Hinj Hreturns Hhandle) as Hsend.
  simpl in Hsend. split; [exact Hsend|split].
  - unfold sendAsync, async, bind. by rewrite Hsend.
  - by rewrite (sendSimple_returns _ _ _ _ _ _ _ _ Hmap Hinj Hreturns Hhandle).
Qed.

Lemma synchronous_handler_value_witness :
  send MediatorSpec.observed (MediatorSpec.request MediatorSpec.SyncRequest)
    MediatorSpec.start
  = (Normal (ObservableOf
               {| emitted := [MediatorSpec.str "sync response"]; termination := Complete |}),
     {| calls := [InjectorGet MediatorSpec.SyncRequestHandler;
                  Handle MediatorSpec.SyncRequestHandler
                    (MediatorSpec.request MediatorSpec.SyncRequest)];
        app := ["handler called"; "observable"; "finally"] |})
  ∧ sendAsync MediatorSpec.observed (MediatorSpec.request MediatorSpec.SyncRequest)
      MediatorSpec.start
    = (Normal (PromiseOf (Fulfilled (MediatorSpec.str "sync response"))),
       {| calls := [InjectorGet MediatorSpec.SyncRequestHandler;
                    Handle MediatorSpec.SyncRequestHandler
                      (MediatorSpec.request MediatorSpec.SyncRequest)];
          app := ["handler called"; "observable"; "finally"] |})
  ∧ sendSimple MediatorSpec.observed (MediatorSpec.request MediatorSpec.SyncRequest)
      MediatorSpec.start
    = (Normal (Plain (MediatorSpec.str "sync response")),
       {| calls := [InjectorGet MediatorSpec.SyncRequestHandler;
                    Handle MediatorSpec.SyncRequestHandler
                      (MediatorSpec.request MediatorSpec.SyncRequest)];
          app := ["handler called"; "other"; "finally"] |}).
Proof.
  apply (synchronous_handler_value MediatorSpec.observed
           (MediatorSpec.request MediatorSpec.SyncRequest)
           MediatorSpec.SyncRequestHandler MediatorSpec.syncRequestHandler
           [MediatorSpec.cleanupPassage; MediatorSpec.loggingPassage]
           (MediatorSpec.str "sync response") MediatorSpec.start
           {| calls := [InjectorGet MediatorSpec.SyncRequestHandler;
                        Handle MediatorSpec.SyncRequestHandler
                          (MediatorSpec.request MediatorSpec.SyncRequest)];
              app := ["handler called"] |}).
  - vm_compute. reflexivity.
  - vm_compute. reflexivity.
  - constructor; [|constructor; [|constructor]].
    + intros request next w result w' Hnext. simpl in *. by rewrite Hnext.
    + intros request next w result w' Hnext. simpl in *. unfold bind.
      by rewrite Hnext.
  - vm_compute. reflexivity.
Defined.

(** C1, as the claim has it, fails once a behavior answers in place of
    the handler: [SyncRequest] is mapped to a handler that returns
    ['sync response'] in every world, and behind the behavior [cache] none
    of the three entry points delivers that value. *)
Lemma cache_hides_synchronous_handler :
  requestHandlerMap MediatorSpec.cached
    !! constructor (MediatorSpec.request MediatorSpec.SyncRequest)
  = Some MediatorSpec.SyncRequestHandler
  ∧ injector MediatorSpec.cached MediatorSpec.SyncRequestHandler
    = Some MediatorSpec.syncRequestHandler
  ∧ (∀ w, (handler_handle MediatorSpec.syncRequestHandler
             (MediatorSpec.request MediatorSpec.SyncRequest) w).1
          = Normal (Plain (MediatorSpec.str "sync response")))
  ∧ (send MediatorSpec.cached (MediatorSpec.request MediatorSpec.SyncRequest)
       MediatorSpec.start).1
    ≠ Normal (ObservableOf (rx_of (MediatorSpec.str "sync response")))
  ∧ (sendAsync MediatorSpec.cached (MediatorSpec.request MediatorSpec.SyncRequest)
       MediatorSpec.start).1
    ≠ Normal (PromiseOf (Fulfilled (MediatorSpec.str "sync response")))
  ∧ (sendSimple MediatorSpec.cached (MediatorSpec.request MediatorSpec.SyncRequest)
       MediatorSpec.start).1
    ≠ Normal (Plain (MediatorSpec.str "sync response")).
Proof.
  repeat split; try (vm_compute; reflexivity); try (vm_compute; discriminate).
Qed.

(** C2, as the code has it.  For a request whose type has no entry in the
    request-handler map, [send] and [sendSimple] throw, before anything
    else happens, the error whose message names the type of the request;
    [sendAsync], an [async] function, throws nothing and returns a promise
    rejected with that error. *)
Theorem unregistered_request_fails {T U : Type} (this : Mediator T U) (request : Instance)
    (w : World U) :
  requestHandlerMap this !! constructor request = None →
  send this request w = (Throw (HandlerNotFound request), w)
  ∧ sendSimple this request w = (Throw (HandlerNotFound request), w)
  ∧ sendAsync this request w
    = (Normal (PromiseOf (Rejected (HandlerNotFound request))), w)
  ∧ HandlerNotFound request
    = Error ("No handler found for request: " +:+ name (constructor request)).
Proof.
  intros Hmap.
  assert (send this request w = (Throw (HandlerNotFound request), w)) as Hsend.
  { unfold send, bind. by rewrite getHandler_missing. }
  repeat split.
  - exact Hsend.
  - unfold sendSimple, bind. by rewrite getHandler_missing.
  - unfold sendAsync, async, bind. by rewrite Hsend.
Qed.

Lemma unregistered_request_fails_witness :
  send MediatorSpec.mediator (MediatorSpec.request MediatorSpec.UnhandledRequest)
    MediatorSpec.start
  = (Throw (Error "No handler found for request: UnhandledRequest"), MediatorSpec.start)
  ∧ sendSimple MediatorSpec.mediator (MediatorSpec.request MediatorSpec.UnhandledRequest)
      MediatorSpec.start
    = (Throw (Error "No handler found for request: UnhandledRequest"), MediatorSpec.start)
  ∧ sendAsync MediatorSpec.mediator (MediatorSpec.request MediatorSpec.UnhandledRequest)
      MediatorSpec.start
    = (Normal (PromiseOf (Rejected (Error "No handler found for request: UnhandledRequest"))),
       MediatorSpec.start)
  ∧ HandlerNotFound (MediatorSpec.request MediatorSpec.UnhandledRequest)
    = Error "No handler found for request: UnhandledRequest".
Proof.
  apply (unregistered_request_fails MediatorSpec.mediator
           (MediatorSpec.request MediatorSpec.UnhandledRequest) MediatorSpec.start).
  vm_compute. reflexivity.
Defined.

(** C2, as the claim has it, fails for [sendAsync]: on a request of the
    unregistered class [UnhandledRequest] the call completes normally; it
    throws no error at all. *)
Lemma sendAsync_unregistered_does_not_throw :
  requestHandlerMap MediatorSpec.mediator
    !! constructor (MediatorSpec.request MediatorSpec.UnhandledRequest) = None
  ∧ ∀ e w',
      sendAsync MediatorSpec.mediator (MediatorSpec.request MediatorSpec.UnhandledRequest)
        MediatorSpec.start
      ≠ (Throw e, w').
Proof.
  split; [vm_compute; reflexivity|].
  intros e w'. vm_compute. discriminate.
Qed.

(** C3.  With the behaviors [B1; B2] registered in that order, the chain
    [send] builds and calls is [B1.handle(request, () => B2.handle(request,
    handle))]: each behavior receives the request itself and a continuation
    of no argument.  When both behaviors wrap their continuation, the
    application state goes through the first part of [B1], the first part of
    [B2], the handler, the second part of [B2] and the second part of [B1],
    in that order.  When the result of [B1] does not depend on its
    continuation, neither [B2] nor the handler takes part in the dispatch;
    when that of [B2] does not, the handler takes no part.  For a list of
    any length the chain is the fold from the right over the behaviors,
    around the call of the handler. *)
Theorem pipeline_nesting_order {T U : Type} (this : Mediator T U) (request : Instance)
    (handlerType : Class) (handler : Handler T U) (B1 B2 : IPipelineBehavior T U) :
  requestHandlerMap this !! constructor request = Some handlerType →
  injector this handlerType = Some handler →
  pipelineBehaviors this = Some [B1; B2] →
  (∀ handle,
     compose this request handle tt
     = behavior_handle B1 request (fun _ => behavior_handle B2 request handle))
  ∧ (∀ x1 x2 w,
       Wrapped (Some [B1; B2]) [x1; x2] →
       send this request w
       = match handler_handle handler request
                 {| calls := calls w ++ [InjectorGet handlerType;
                                         Handle (handler_class handler) request];
                    app := before x2 request (before x1 request (app w)) |} with
         | (Normal result, w') =>
             (Normal (normalized result),
              {| calls := calls w';
                 app := after x1 request (after x2 request (app w')) |})
         | (Throw e, w') => (Throw e, w')
         end)
  ∧ (∀ outcome w,
       (∀ next, behavior_handle B1 request next = outcome) →
       send this request w = outcome (resolved handlerType w))
  ∧ (∀ outcome w,
       (∀ next, behavior_handle B2 request next = outcome) →
       send this request w
       = behavior_handle B1 request (fun _ => outcome) (resolved handlerType w))
  ∧ (∀ (that : Mediator T U) handle,
       compose that request handle
       = foldr (fun behavior next => fun _ : unit => behavior_handle behavior request next)
               handle (default [] (pipelineBehaviors that))).
Proof.
  intros Hmap Hinj Hbehaviors.
  assert (∀ handle,
            compose this request handle tt
            = behavior_handle B1 request (fun _ => behavior_handle B2 request handle))
    as Hnest.
  { intros handle. rewrite compose_nest, Hbehaviors. reflexivity. }
  split; [exact Hnest|split; [|split; [|split]]].
  - intros x1 x2 w Hwrapped.
    rewrite (send_wrapped _ _ _ _ [x1; x2] _ Hmap Hinj); [done|].
    by rewrite Hbehaviors.
  - intros outcome w Hignores. unfold send, bind.
    rewrite (getHandler_found _ _ _ _ _ Hmap Hinj), Hnest. by rewrite Hignores.
  - intros outcome w Hignores. unfold send, bind.
    rewrite (getHandler_found _ _ _ _ _ Hmap Hinj), Hnest. by rewrite Hignores.
  - intros that handle. apply compose_nest.
Qed.

Lemma pipeline_nesting_order_witness :
  send MediatorSpec.mediator (MediatorSpec.request MediatorSpec.SyncRequest)
    MediatorSpec.start
  = (Normal (ObservableOf (rx_of (MediatorSpec.str "sync response"))),
     {| calls := [InjectorGet MediatorSpec.SyncRequestHandler;
                  Handle MediatorSpec.SyncRequestHandler
                    (MediatorSpec.request MediatorSpec.SyncRequest)];
        app := ["behavior1 start"; "behavior2 start"; "handler called";
                "behavior2 end"; "behavior1 end"] |})
  ∧ send MediatorSpec.cached (MediatorSpec.request MediatorSpec.SyncRequest)
      MediatorSpec.start
    = (Normal (ObservableOf (rx_of (MediatorSpec.str "cached response"))),
       {| calls := [InjectorGet MediatorSpec.SyncRequestHandler]; app := [] |}).
Proof.
  split.
  - destruct (pipeline_nesting_order MediatorSpec.mediator
                (MediatorSpec.request MediatorSpec.SyncRequest)
                MediatorSpec.SyncRequestHandler MediatorSpec.syncRequestHandler
                (around MediatorSpec.behavior1) (around MediatorSpec.behavior2))
      as (_ & Horder & _).
    + vm_compute. reflexivity.
    + vm_compute. reflexivity.
    + reflexivity.
    + rewrite (Horder MediatorSpec.behavior1 MediatorSpec.behavior2 MediatorSpec.start).
      * vm_compute. reflexivity.
      * repeat constructor.
  - destruct (pipeline_nesting_order MediatorSpec.cached
                (MediatorSpec.request MediatorSpec.SyncRequest)
                MediatorSpec.SyncRequestHandler MediatorSpec.syncRequestHandler
                MediatorSpec.cache (around MediatorSpec.behavior2))
      as (_ & _ & Hshort & _).
    + vm_compute. reflexivity.
    + vm_compute. reflexivity.
    + reflexivity.
    + rewrite (Hshort (ret (ObservableOf (rx_of (MediatorSpec.str "cached response"))))
                 MediatorSpec.start).
      * reflexivity.
      * intros next. reflexivity.
Defined.

(** C4, as the code has it.  Let the request type be mapped to a handler
    class the injector resolves, and let every registered behavior (if
    any) call its continuation once, after logic that does not throw, and
    return the result of the continuation when it returns one.  When the
    handler returns a promise or an observable, whatever it holds,
    [sendSimple] throws the error of the synchronous contract. *)
Theorem asynchronous_handler_rejected_by_sendSimple {T U : Type} (this : Mediator T U)
    (request : Instance) (handlerType : Class) (handler : Handler T U)
    (passages : list (Passage T U)) (result : JsValue T) (w w' : World U) :
  requestHandlerMap this !! constructor request = Some handlerType →
  injector this handlerType = Some handler →
  Returns (pipelineBehaviors this) passages →
  handler_handle handler request (called handlerType handler request passages w)
  = (Normal result, w') →
  (∀ value, result ≠ Plain value) →
  sendSimple this request w
  = (Throw (Error "sendSimple can only be used with synchronous handlers"),
     leaving request passages (resolved handlerType w) result w').
Proof.
  intros Hmap Hinj Hreturns Hhandle Hdeferred.
  rewrite (sendSimple_returns _ _ _ _ _ _ _ _ Hmap Hinj Hreturns Hhandle).
  destruct result as [value|p|o]; [|done..].
  by destruct (Hdeferred value).
Qed.

Lemma asynchronous_handler_rejected_by_sendSimple_witness :
  sendSimple MediatorSpec.observed (MediatorSpec.request MediatorSpec.AsyncPromiseRequest)
    MediatorSpec.start
  = (Throw (Error "sendSimple can only be used with synchronous handlers"),
     {| calls := [InjectorGet MediatorSpec.AsyncPromiseRequestHandler;
                  Handle MediatorSpec.AsyncPromiseRequestHandler
                    (MediatorSpec.request MediatorSpec.AsyncPromiseRequest)];
        app := ["other"; "finally"] |}).
Proof.
  apply (asynchronous_handler_rejected_by_sendSimple MediatorSpec.observed
           (MediatorSpec.request MediatorSpec.AsyncPromiseRequest)
           MediatorSpec.AsyncPromiseRequestHandler MediatorSpec.asyncPromiseRequestHandler
           [MediatorSpec.cleanupPassage; MediatorSpec.loggingPassage]
           (PromiseOf (Fulfilled (MediatorSpec.str "async promise response")))
           MediatorSpec.start
           {| calls := [InjectorGet MediatorSpec.AsyncPromiseRequestHandler;
                        Handle MediatorSpec.AsyncPromiseRequestHandler
                          (MediatorSpec.request MediatorSpec.AsyncPromiseRequest)];
              app := [] |}).
  - vm_compute. reflexivity.
  - vm_compute. reflexivity.
  - constructor; [|constructor; [|constructor]].
    + intros request next w result w' Hnext. simpl in *. by rewrite Hnext.
    + intros request next w result w' Hnext. simpl in *. unfold bind.
      by rewrite Hnext.
  - vm_compute. reflexivity.
  - intros value. discriminate.
Defined.

(** C4, as the claim has it, fails once a behavior replaces the result of
    the handler: the handler of [AsyncPromiseRequest] returns a promise in
    every world, and behind the behavior [fallback], which runs it,
    [sendSimple] returns normally. *)
Lemma fallback_admits_asynchronous_handler :
  requestHandlerMap MediatorSpec.lenient
    !! constructor (MediatorSpec.request MediatorSpec.AsyncPromiseRequest)
  = Some MediatorSpec.AsyncPromiseRequestHandler
  ∧ injector MediatorSpec.lenient MediatorSpec.AsyncPromiseRequestHandler
    = Some MediatorSpec.asyncPromiseRequestHandler
  ∧ (∀ w, (handler_handle MediatorSpec.asyncPromiseRequestHandler
             (MediatorSpec.request MediatorSpec.AsyncPromiseRequest) w).1
          = Normal (PromiseOf (Fulfilled (MediatorSpec.str "async promise response"))))
  ∧ sendSimple MediatorSpec.lenient (MediatorSpec.request MediatorSpec.AsyncPromiseRequest)
      MediatorSpec.start
    = (Normal (Plain (MediatorSpec.str "pending")),
       {| calls := [InjectorGet MediatorSpec.AsyncPromiseRequestHandler;
                    Handle MediatorSpec.AsyncPromiseRequestHandler
                      (MediatorSpec.request MediatorSpec.AsyncPromiseRequest)];
          app := [] |}).
Proof.
  repeat split; vm_compute; reflexivity.
Qed.

(** C10.  [sendSimple] inspects the result only once the chain of
    behaviors around the handler has returned: its outcome is that of the
    chain, run in the world [getHandler] left, with a promise or an
    observable turned into the error, in the world the chain left.  So
    when behaviors wrap their continuation around a handler that returns a
    promise or an observable, the error is thrown in a world in which the
    handler has been called and every part of every behavior has run. *)
Theorem sendSimple_guard_follows_pipeline {T U : Type} (this : Mediator T U)
    (request : Instance) (handlerType : Class) (handler : Handler T U) (w : World U) :
  requestHandlerMap this !! constructor request = Some handlerType →
  injector this handlerType = Some handler →
  sendSimple this request w
  = match compose this request (fun _ => call_handle handler request) tt
            (resolved handlerType w) with
    | (Normal result, w') =>
        if isObservable result || instanceofPromise result
        then (Throw SynchronousContractViolation, w')
        else (Normal result, w')
    | (Throw e, w') => (Throw e, w')
    end
  ∧ (∀ wraps body result u',
       Wrapped (pipelineBehaviors this) wraps →
       (∀ w1, handler_handle handler request w1 = effect body w1) →
       body (befores request wraps (app w)) = (Normal result, u') →
       (∀ value, result ≠ Plain value) →
       sendSimple this request w
       = (Throw SynchronousContractViolation,
          {| calls := calls w ++ [InjectorGet handlerType;
                                  Handle (handler_class handler) request];
             app := afters request wraps u' |})).
Proof.
  intros Hmap Hinj. split.
  - unfold sendSimple, bind. rewrite (getHandler_found _ _ _ _ _ Hmap Hinj).
    destruct (compose _ _ _ _ _) as [[result|e] w']; [|done].
    by destruct (isObservable result || instanceofPromise result).
  - intros wraps body result u' Hwrapped Hquiet Hbody Hdeferred.
    rewrite (sendSimple_wrapped _ _ _ _ wraps) by done.
    rewrite Hquiet. unfold effect, entered; simpl. rewrite Hbody.
    destruct result as [value|p|o]; [|done..].
    by destruct (Hdeferred value).
Qed.

Lemma sendSimple_guard_follows_pipeline_witness :
  sendSimple MediatorSpec.mediator
    (MediatorSpec.request MediatorSpec.AsyncObservableRequest) MediatorSpec.start
  = (Throw (Error "sendSimple can only be used with synchronous handlers"),
     {| calls := [InjectorGet MediatorSpec.AsyncObservableRequestHandler;
                  Handle MediatorSpec.AsyncObservableRequestHandler
                    (MediatorSpec.request MediatorSpec.AsyncObservableRequest)];
        app := ["behavior1 start"; "behavior2 start"; "handler called";
                "behavior2 end"; "behavior1 end"] |}).
Proof.
  destruct (sendSimple_guard_follows_pipeline MediatorSpec.mediator
              (MediatorSpec.request MediatorSpec.AsyncObservableRequest)
              MediatorSpec.AsyncObservableRequestHandler
              MediatorSpec.asyncObservableRequestHandler MediatorSpec.start)
    as [_ Hthrown].
  - vm_compute. reflexivity.
  - vm_compute. reflexivity.
  - apply (Hthrown [MediatorSpec.behavior1; MediatorSpec.behavior2]
             (fun callOrder =>
                (Normal (ObservableOf (rx_of (MediatorSpec.str "async observable response"))),
                 MediatorSpec.push "handler called" callOrder))
             (ObservableOf (rx_of (MediatorSpec.str "async observable response")))
             ["behavior1 start"; "behavior2 start"; "handler called"]).
    + repeat constructor.
    + intros w1. reflexivity.
    + vm_compute. reflexivity.
    + intros value. discriminate.
Defined.

(** ** Publication of notifications *)

Section PublishFacts.
Context {T U : Type}.
Implicit Types (this : Mediator T U) (notification : Instance) (w : World U).

(** An exception of the callback ends [forEach]: the elements after the
    one that threw are not visited. *)
Lemma forEach_throw {A} (callback : A → M U unit) (before : list A) (x : A)
    (after : list A) (e : JsError) w w1 w2 :
  forEach before callback w = (Normal tt, w1) →
  callback x w1 = (Throw e, w2) →
  forEach (before ++ x :: after) callback w = (Throw e, w2).
Proof.
  revert w. induction before as [|y before IH]; intros w Hbefore Hx; simpl in *.
  - injection Hbefore as ->. unfold bind. by rewrite Hx.
  - unfold bind in *. destruct (callback y w) as [[[]|e'] w0]; [|done].
    by apply IH.
Qed.

(** Calling a resolved handler that only touches the application
    state. *)
Lemma notify_quiet this notification handlerType handler body w :
  injector this handlerType = Some handler →
  (∀ w1, handler_handle handler notification w1 = effect body w1) →
  notify this notification handlerType w
  = match body (app w) with
    | (Normal _, u) =>
        (Normal tt,
         {| calls := calls w ++ [InjectorGet handlerType;
                                 Handle (handler_class handler) notification];
            app := u |})
    | (Throw e, u) =>
        (Throw e,
         {| calls := calls w ++ [InjectorGet handlerType;
                                 Handle (handler_class handler) notification];
            app := u |})
    end.
Proof.
  intros Hinj Hquiet. unfold notify, injector_get, call_handle, bind, spy.
  rewrite Hinj; simpl. rewrite Hquiet. unfold effect; simpl.
  rewrite <- app_assoc; simpl.
  by destruct (body (app w)) as [[r|e] u].
Qed.
End PublishFacts.

(** C5.  When the type of a notification is mapped to the list [H1; H2]
    and the injector resolves both classes, [publish] is the sequence:
    resolve [H1], call its [handle] on the notification, resolve [H2], call
    its [handle] on the same notification.  For handlers that only touch
    the application state, each is called once, in that order, the second
    in the state the first left; when the first throws, the second is
    neither resolved nor called and the error reaches the caller as it is.
    For a list of any length, once the handlers before some handler have
    returned and that handler throws, [publish] throws the same error in
    the world that handler left, whatever follows it in the list. *)
Theorem publish_in_registration_order {T U : Type} (this : Mediator T U)
    (notification : Instance) (H1 H2 : Class) (h1 h2 : Handler T U) :
  notificationHandlerMap this !! constructor notification = Some [H1; H2] →
  injector this H1 = Some h1 →
  injector this H2 = Some h2 →
  (∀ w,
     publish this notification w
     = (spy (InjectorGet H1) ;;; call_handle h1 notification ;;;
        spy (InjectorGet H2) ;;; call_handle h2 notification ;;; ret tt) w)
  ∧ (∀ body1 body2 w,
       (∀ w1, handler_handle h1 notification w1 = effect body1 w1) →
       (∀ w1, handler_handle h2 notification w1 = effect body2 w1) →
       let first := [InjectorGet H1; Handle (handler_class h1) notification] in
       let second := [InjectorGet H2; Handle (handler_class h2) notification] in
       publish this notification w
       = match body1 (app w) with
         | (Normal _, u1) =>
             match body2 u1 with
             | (Normal _, u2) =>
                 (Normal tt, {| calls := calls w ++ first ++ second; app := u2 |})
             | (Throw e, u2) =>
                 (Throw e, {| calls := calls w ++ first ++ second; app := u2 |})
             end
         | (Throw e, u1) => (Throw e, {| calls := calls w ++ first; app := u1 |})
         end)
  ∧ (∀ (that : Mediator T U) before failing after e w w1 w2,
       notificationHandlerMap that !! constructor notification
       = Some (before ++ failing :: after) →
       forEach before (notify that notification) w = (Normal tt, w1) →
       notify that notification failing w1 = (Throw e, w2) →
       publish that notification w = (Throw e, w2)).
Proof.
  intros Hmap Hinj1 Hinj2. split; [|split].
  - intros w. unfold publish. rewrite Hmap. simpl.
    unfold notify, injector_get, bind, ret, spy. simpl. rewrite Hinj1, Hinj2.
    destruct (call_handle h1 notification _) as [[r1|e1] w1]; [|done].
    by destruct (call_handle h2 notification _) as [[r2|e2] w2].
  - intros body1 body2 w Hquiet1 Hquiet2 first second.
    unfold publish. rewrite Hmap. simpl. unfold bind at 1.
    rewrite (notify_quiet _ _ _ _ body1 _ Hinj1 Hquiet1).
    destruct (body1 (app w)) as [[r1|e1] u1]; [|done].
    unfold bind at 1. rewrite (notify_quiet _ _ _ _ body2 _ Hinj2 Hquiet2). simpl.
    rewrite <- app_assoc.
    by destruct (body2 u1) as [[r2|e2] u2].
  - intros that before failing after e w w1 w2 Hthat Hbefore Hfailing.
    unfold publish. rewrite Hthat. by eapply forEach_throw.
Qed.

Lemma publish_in_registration_order_witness :
  publish MediatorSpec.mediator (MediatorSpec.request MediatorSpec.TestNotification)
    MediatorSpec.start
  = (Normal tt,
     {| calls := [InjectorGet MediatorSpec.TestNotificationHandler;
                  Handle MediatorSpec.TestNotificationHandler
                    (MediatorSpec.request MediatorSpec.TestNotification);
                  InjectorGet MediatorSpec.AnotherTestNotificationHandler;
                  Handle MediatorSpec.AnotherTestNotificationHandler
                    (MediatorSpec.request MediatorSpec.TestNotification)];
        app := ["first"; "second"] |})
  ∧ publish MediatorSpec.faulty (MediatorSpec.request MediatorSpec.TestNotification)
      MediatorSpec.start
    = (Throw (Error "first failed"),
       {| calls := [InjectorGet MediatorSpec.TestNotificationHandler;
                    Handle MediatorSpec.TestNotificationHandler
                      (MediatorSpec.request MediatorSpec.TestNotification)];
          app := ["first"] |}).
Proof.
  split.
  - destruct (publish_in_registration_order MediatorSpec.mediator
                (MediatorSpec.request MediatorSpec.TestNotification)
                MediatorSpec.TestNotificationHandler
                MediatorSpec.AnotherTestNotificationHandler
                MediatorSpec.testNotificationHandler
                MediatorSpec.anotherTestNotificationHandler)
      as (_ & Hquiet & _).
    + vm_compute. reflexivity.
    + vm_compute. reflexivity.
    + vm_compute. reflexivity.
    + rewrite (Hquiet
                 (fun callOrder =>
                    (Normal (Plain MediatorSpec.undefined),
                     MediatorSpec.push "first" callOrder))
                 (fun callOrder =>
                    (Normal (Plain MediatorSpec.undefined),
                     MediatorSpec.push "second" callOrder))
                 MediatorSpec.start).
      * reflexivity.
      * intros w1. reflexivity.
      * intros w1. reflexivity.
  - destruct (publish_in_registration_order MediatorSpec.faulty
                (MediatorSpec.request MediatorSpec.TestNotification)
                MediatorSpec.TestNotificationHandler
                MediatorSpec.AnotherTestNotificationHandler
                MediatorSpec.failingNotificationHandler
                MediatorSpec.anotherTestNotificationHandler)
      as (_ & _ & Hthrow).
    + vm_compute. reflexivity.
    + vm_compute. reflexivity.
    + vm_compute. reflexivity.
    + apply (Hthrow MediatorSpec.faulty [] MediatorSpec.TestNotificationHandler
               [MediatorSpec.AnotherTestNotificationHandler]
               (Error "first failed") MediatorSpec.start MediatorSpec.start).
      * vm_compute. reflexivity.
      * reflexivity.
      * vm_compute. reflexivity.
Defined.

(** C8.  When the type of a notification has no entry in the
    notification-handler map, [publish] returns normally and leaves the
    world as it found it: the injector is not asked for any instance, no
    handler is called, and nothing is thrown. *)
Theorem publish_without_handlers {T U : Type} (this : Mediator T U)
    (notification : Instance) (w : World U) :
  notificationHandlerMap this !! constructor notification = None →
  publish this notification w = (Normal tt, w).
Proof. intros Hmap. unfold publish. by rewrite Hmap. Qed.

Lemma publish_without_handlers_witness :
  publish MediatorSpec.mediator (MediatorSpec.request MediatorSpec.AnotherNotification)
    MediatorSpec.start
  = (Normal tt, MediatorSpec.start).
Proof.
  apply (publish_without_handlers MediatorSpec.mediator
           (MediatorSpec.request MediatorSpec.AnotherNotification) MediatorSpec.start).
  vm_compute. reflexivity.
Defined.

(** * Further properties of the code *)

(** ** The registry builder, continued *)

Section RegistryMore.
Variable store : Reflect.Store.

Lemma registerHandler_undecorated maps handler :
  requestOf store handler = None →
  notificationOf store handler = None →
  registerHandler store maps handler = maps.
Proof. intros Hreq Hnot. destruct maps as [hm nm]; simpl. by rewrite Hreq, Hnot. Qed.

Lemma request_registry_none handlers request :
  Forall (λ h, requestOf store h ≠ Some request) handlers →
  (registries store handlers).1 !! request = None.
Proof.
  induction handlers as [|h handlers IH] using rev_ind; intros Hnone; [done|].
  apply Forall_app in Hnone as [Hnone Hh]. rewrite Forall_singleton in Hh.
  rewrite registries_snoc. specialize (IH Hnone).
  destruct (registries store handlers) as [hm nm]; simpl in *.
  destruct (requestOf store h) as [r|] eqn:Hr; [|done].
  rewrite lookup_insert_ne; [done|]. intros ->. by apply Hh.
Qed.

(** Either no class declares the request type, or some class is the last
    one to declare it. *)
Lemma last_declaring handlers request :
  Forall (λ h, requestOf store h ≠ Some request) handlers
  ∨ ∃ before handler after,
      handlers = before ++ handler :: after
      ∧ requestOf store handler = Some request
      ∧ Forall (λ h, requestOf store h ≠ Some request) after.
Proof.
  induction handlers as [|h handlers [IH|(before & handler & after & -> & Hreq & Hafter)]].
  - left. constructor.
  - destruct (decide (requestOf store h = Some request)) as [Hh|Hh].
    + right. exists [], h, handlers. done.
    + left. by constructor.
  - right. exists (h :: before), handler, after. done.
Qed.
End RegistryMore.

(** The provider list hands every input class on to the injector, in
    input order and whatever its metadata, behind the class [Mediator];
    the two registries are the only other providers. *)
Theorem providers_pass_classes_through (store : Reflect.Store) (handlers : list Class) :
  providedTypes (provideMediator store handlers) = MediatorClass :: handlers
  ∧ length (provideMediator store handlers) = length handlers + 3.
Proof.
  unfold provideMediator, providedTypes.
  destruct (registries store handlers) as [hm nm]. split.
  - cbn. f_equal. induction handlers as [|h handlers IH]; [done|].
    cbn. f_equal. exact IH.
  - simpl. rewrite length_app, length_fmap. simpl. lia.
Qed.

(** The request registry holds nothing but declarations of the input: a
    type is bound only to a class of the input that declares it, and it is
    unbound exactly when no class of the input declares it. *)
Theorem request_registry_exact (store : Reflect.Store) (handlers : list Class)
    (request : Class) :
  (∀ handler,
     providedRequestHandler (provideMediator store handlers) request = Some handler →
     handler ∈ handlers ∧ requestOf store handler = Some request)
  ∧ (providedRequestHandler (provideMediator store handlers) request = None
     ↔ Forall (λ h, requestOf store h ≠ Some request) handlers).
Proof.
  rewrite provided_request.
  destruct (last_declaring store handlers request)
    as [Hnone|(before & last & after & -> & Hreq & Hafter)].
  - rewrite (request_registry_none _ _ _ Hnone). split; [done|]. done.
  - rewrite (request_registry_last _ _ _ _ _ Hreq Hafter). split.
    + intros handler [= <-]. split; [|done]. set_solver.
    + split; [done|]. intros Hnone.
      apply Forall_app in Hnone as [_ Hnone]. apply Forall_cons in Hnone as [Hlast _].
      done.
Qed.

Lemma request_registry_exact_witness :
  ProvidersSpec.TestRequestHandler ∈ ProvidersSpec.handlers
  ∧ requestOf ProvidersSpec.store ProvidersSpec.TestRequestHandler
    = Some ProvidersSpec.TestRequest.
Proof.
  destruct (request_registry_exact ProvidersSpec.store ProvidersSpec.handlers
              ProvidersSpec.TestRequest) as [Hsound _].
  apply Hsound. vm_compute. reflexivity.
Defined.

(** The notification registry never holds an empty list: a type is bound
    exactly when some class of the input declares it, and then to the
    classes that declare it, each as often as the input lists it. *)
Theorem notification_registry_exact (store : Reflect.Store) (handlers : list Class)
    (notification : Class) :
  (∀ declaring,
     providedNotificationHandlers (provideMediator store handlers) notification
     = Some declaring →
     declaring ≠ []
     ∧ declaring = filter (λ h, notificationOf store h = Some notification) handlers
     ∧ ∀ handler, handler ∈ declaring →
         handler ∈ handlers ∧ notificationOf store handler = Some notification)
  ∧ (providedNotificationHandlers (provideMediator store handlers) notification = None
     ↔ Forall (λ h, notificationOf store h ≠ Some notification) handlers).
Proof.
  rewrite provided_notification, notification_registry_filter.
  destruct (filter _ handlers) as [|h declaring] eqn:Hfilter.
  - split; [done|]. split; [|done]. intros _.
    apply Forall_forall. intros h Hh Hdecl.
    assert (h ∈ filter (λ h, notificationOf store h = Some notification) handlers)
      as Hin by (by apply list_elem_of_filter).
    rewrite Hfilter in Hin. by apply elem_of_nil in Hin.
  - split.
    + intros ? [= <-]. split; [done|]. split; [done|].
      intros handler Hin. rewrite <- Hfilter in Hin.
      apply list_elem_of_filter in Hin as [Hdecl Hin]. done.
    + split; [done|]. intros Hnone.
      assert (h ∈ filter (λ h, notificationOf store h = Some notification) handlers)
        as Hin by (rewrite Hfilter; set_solver).
      apply list_elem_of_filter in Hin as [Hdecl Hin].
      rewrite Forall_forall in Hnone. by destruct (Hnone h Hin).
Qed.

Lemma notification_registry_exact_witness :
  [ProvidersSpec.TestNotificationHandler; ProvidersSpec.AnotherTestNotificationHandler] ≠ []
  ∧ [ProvidersSpec.TestNotificationHandler; ProvidersSpec.AnotherTestNotificationHandler]
    = filter (λ h, notificationOf ProvidersSpec.store h
                   = Some ProvidersSpec.TestNotification) ProvidersSpec.handlers
  ∧ ∀ handler,
      handler ∈ [ProvidersSpec.TestNotificationHandler;
                 ProvidersSpec.AnotherTestNotificationHandler] →
      handler ∈ ProvidersSpec.handlers
      ∧ notificationOf ProvidersSpec.store handler = Some ProvidersSpec.TestNotification.
Proof.
  destruct (notification_registry_exact ProvidersSpec.store ProvidersSpec.handlers
              ProvidersSpec.TestNotification) as [Hsound _].
  apply Hsound. vm_compute. reflexivity.
Defined.

(** A class without metadata of either kind leaves both registries as
    they would be without it, wherever it stands in the input. *)
Theorem undecorated_class_ignored (store : Reflect.Store) (handler : Class)
    (before after : list Class) :
  requestOf store handler = None →
  notificationOf store handler = None →
  registries store (before ++ handler :: after) = registries store (before ++ after).
Proof.
  intros Hreq Hnot. unfold registries. rewrite !fold_left_app. simpl.
  by rewrite registerHandler_undecorated.
Qed.

Lemma undecorated_class_ignored_witness :
  registries ProvidersSpec.store
    ([ProvidersSpec.TestRequestHandler] ++ ProvidersSpec.NonHandlerClass
       :: [ProvidersSpec.TestNotificationHandler])
  = registries ProvidersSpec.store
      ([ProvidersSpec.TestRequestHandler] ++ [ProvidersSpec.TestNotificationHandler]).
Proof.
  apply (undecorated_class_ignored ProvidersSpec.store ProvidersSpec.NonHandlerClass).
  - vm_compute. reflexivity.
  - vm_compute. reflexivity.
Defined.

(** ** The decorators *)

Section MetadataFacts.
Variable store : Reflect.Store.

(** Own metadata is read before the prototype is asked. *)
Lemma getMetadataWithin_own depth key target value :
  Reflect.own store !! (key, target) = Some value →
  Reflect.getMetadataWithin depth key target store = Some value.
Proof. intros Hown. destruct depth; simpl; by rewrite Hown. Qed.

Lemma getMetadataWithin_other_key depth key key' value target other :
  key ≠ key' →
  Reflect.getMetadataWithin depth key' other
    (Reflect.defineMetadata key value target store)
  = Reflect.getMetadataWithin depth key' other store.
Proof.
  intros Hkey. revert other. induction depth as [|depth IH]; intros other; simpl.
  - rewrite lookup_insert_ne; [done|]. intros [= ? _]. done.
  - rewrite lookup_insert_ne; [|intros [= ? _]; done].
    destruct (Reflect.own store !! (key', other)); [done|].
    destruct (Reflect.prototypeOf store !! other); [apply IH|done].
Qed.

Lemma getMetadataWithin_off_chain depth key value target other :
  target ∉ Reflect.chainWithin depth other store →
  Reflect.getMetadataWithin depth key other
    (Reflect.defineMetadata key value target store)
  = Reflect.getMetadataWithin depth key other store.
Proof.
  revert other. induction depth as [|depth IH]; intros other Hoff; simpl in *.
  - rewrite lookup_insert_ne; [done|]. intros [= ->]. set_solver.
  - rewrite lookup_insert_ne; [|intros [= ->]; set_solver].
    destruct (Reflect.own store !! (key, other)); [done|].
    destruct (Reflect.prototypeOf store !! other) as [parent|]; [|done].
    apply IH. set_solver.
Qed.
End MetadataFacts.

(** Each decorator stores the declared type as own metadata of its
    target, where the registry builder reads it back.  It never changes
    what is read for the other kind, on any class.  For its own kind it
    leaves alone every class that does not have the target on its prototype
    chain; a class that extends the target and has no own metadata of that
    kind reads the declared type of the target. *)
Theorem decorators_round_trip (store : Reflect.Store) (declared target other : Class) :
  requestOf (RequestHandler declared target store) target = Some declared
  ∧ notificationOf (NotificationHandler declared target store) target = Some declared
  ∧ notificationOf (RequestHandler declared target store) other
    = notificationOf store other
  ∧ requestOf (NotificationHandler declared target store) other = requestOf store other
  ∧ (target ∉ Reflect.prototypeChain other store →
     requestOf (RequestHandler declared target store) other = requestOf store other
     ∧ notificationOf (NotificationHandler declared target store) other
       = notificationOf store other)
  ∧ (Reflect.prototypeOf store !! other = Some target →
     (Reflect.own store !! (REQUEST_HANDLER_METADATA_KEY, other) = None →
      requestOf (RequestHandler declared target store) other = Some declared)
     ∧ (Reflect.own store !! (NOTIFICATION_HANDLER_METADATA_KEY, other) = None →
        notificationOf (NotificationHandler declared target store) other
        = Some declared)).
Proof.
  unfold RequestHandler, NotificationHandler, Reflect.getMetadata, Reflect.prototypeChain.
  simpl. split; [|split; [|split; [|split; [|split]]]].
  - apply getMetadataWithin_own. simpl. apply lookup_insert_eq.
  - apply getMetadataWithin_own. simpl. apply lookup_insert_eq.
  - by apply getMetadataWithin_other_key.
  - by apply getMetadataWithin_other_key.
  - intros Hoff. split; by apply getMetadataWithin_off_chain.
  - intros Hextends.
    destruct (size (Reflect.prototypeOf store)) as [|depth] eqn:Hsize.
    { apply map_size_empty_inv in Hsize. rewrite Hsize in Hextends.
      by rewrite lookup_empty in Hextends. }
    assert (other ≠ target ∨ other = target) as [Hne | ->]
      by (destruct (decide (other = target)); auto).
    + split; intros Hown; simpl.
      * rewrite lookup_insert_ne by (intros [= ->]; done). rewrite Hown, Hextends.
        apply getMetadataWithin_own. simpl. apply lookup_insert_eq.
      * rewrite lookup_insert_ne by (intros [= ->]; done). rewrite Hown, Hextends.
        apply getMetadataWithin_own. simpl. apply lookup_insert_eq.
    + split; intros _; apply getMetadataWithin_own; simpl; apply lookup_insert_eq.
Qed.

Lemma decorators_round_trip_witness :
  (requestOf
     (RequestHandler ProvidersSpec.AnotherTestRequest ProvidersSpec.NonHandlerClass
        ProvidersSpec.derived)
     ProvidersSpec.DerivedRequestHandler
   = requestOf ProvidersSpec.derived ProvidersSpec.DerivedRequestHandler
   ∧ notificationOf
       (NotificationHandler ProvidersSpec.AnotherTestRequest ProvidersSpec.NonHandlerClass
          ProvidersSpec.derived)
       ProvidersSpec.DerivedRequestHandler
     = notificationOf ProvidersSpec.derived ProvidersSpec.DerivedRequestHandler)
  ∧ requestOf
      (RequestHandler ProvidersSpec.AnotherTestRequest ProvidersSpec.TestRequestHandler
         ProvidersSpec.derived)
      ProvidersSpec.DerivedRequestHandler
    = Some ProvidersSpec.AnotherTestRequest.
Proof.
  split.
  - apply (decorators_round_trip ProvidersSpec.derived ProvidersSpec.AnotherTestRequest
             ProvidersSpec.NonHandlerClass ProvidersSpec.DerivedRequestHandler).
    apply (bool_decide_unpack _). vm_compute. exact I.
  - apply (decorators_round_trip ProvidersSpec.derived ProvidersSpec.AnotherTestRequest
             ProvidersSpec.TestRequestHandler ProvidersSpec.DerivedRequestHandler).
    + vm_compute. reflexivity.
    + vm_compute. reflexivity.
Defined.

(** Listed behind its decorated superclass, an undecorated subclass
    becomes the handler of the request type of the superclass. *)
Example inherited_metadata_registers_subclass :
  requestOf ProvidersSpec.derived ProvidersSpec.DerivedRequestHandler
  = Some ProvidersSpec.TestRequest
  ∧ providedRequestHandler
      (provideMediator ProvidersSpec.derived
         [ProvidersSpec.TestRequestHandler; ProvidersSpec.DerivedRequestHandler])
      ProvidersSpec.TestRequest
    = Some ProvidersSpec.DerivedRequestHandler.
Proof. split; vm_compute; reflexivity. Qed.

(** ** Dispatch, continued *)

(** [send] as it was before [getHandler] was split off and [send] as it
    is now do the same, on every mediator, request and world. *)
Theorem inlined_send_agrees {T U : Type} (this : Mediator T U) (request : Instance)
    (w : World U) :
  Inlined.send this request w = send this request w.
Proof.
  unfold Inlined.send, send, getHandler, HandlerNotFound.
  destruct (requestHandlerMap this !! constructor request); reflexivity.
Qed.

(** When every registered behavior (if any) calls its continuation once,
    after logic that does not throw, and lets an exception of the
    continuation go on as it is (a [finally] part may run, a [catch] may
    not swallow or replace the error), an exception of the handler reaches
    the caller of [send] and of [sendSimple] as it is and rejects the
    promise of [sendAsync], all three in the same world. *)
Theorem handler_failure_propagates {T U : Type} (this : Mediator T U) (request : Instance)
    (handlerType : Class) (handler : Handler T U) (passages : list (Passage T U))
    (e : JsError) (w w' : World U) :
  requestHandlerMap this !! constructor request = Some handlerType →
  injector this handlerType = Some handler →
  Rethrows (pipelineBehaviors this) passages →
  handler_handle handler request (called handlerType handler request passages w)
  = (Throw e, w') →
  send this request w
  = (Throw e, escaping request passages (resolved handlerType w) e w')
  ∧ sendSimple this request w
    = (Throw e, escaping request passages (resolved handlerType w) e w')
  ∧ sendAsync this request w
    = (Normal (PromiseOf (Rejected e)),
       escaping request passages (resolved handlerType w) e w').
Proof.
  intros Hmap Hinj Hrethrows Hhandle.
  destruct (pipeline_rethrows _ _ _ _ _ _ _ _ Hmap Hinj Hrethrows Hhandle)
    as [Hsend Hsimple].
  split; [exact Hsend|split; [exact Hsimple|]].
  unfold sendAsync, async, bind. by rewrite Hsend.
Qed.

Lemma handler_failure_propagates_witness :
  send MediatorSpec.observedBroken (MediatorSpec.request MediatorSpec.SyncRequest)
    MediatorSpec.start
  = (Throw (Error "handler failed"),
     {| calls := [InjectorGet MediatorSpec.SyncRequestHandler;
                  Handle MediatorSpec.SyncRequestHandler
                    (MediatorSpec.request MediatorSpec.SyncRequest)];
        app := ["handler called"; "finally"] |})
  ∧ sendSimple MediatorSpec.observedBroken (MediatorSpec.request MediatorSpec.SyncRequest)
      MediatorSpec.start
    = (Throw (Error "handler failed"),
       {| calls := [InjectorGet MediatorSpec.SyncRequestHandler;
                    Handle MediatorSpec.SyncRequestHandler
                      (MediatorSpec.request MediatorSpec.SyncRequest)];
          app := ["handler called"; "finally"] |})
  ∧ sendAsync MediatorSpec.observedBroken (MediatorSpec.request MediatorSpec.SyncRequest)
      MediatorSpec.start
    = (Normal (PromiseOf (Rejected (Error "handler failed"))),
       {| calls := [InjectorGet MediatorSpec.SyncRequestHandler;
                    Handle MediatorSpec.SyncRequestHandler
                      (MediatorSpec.request MediatorSpec.SyncRequest)];
          app := ["handler called"; "finally"] |}).
Proof.
  apply (handler_failure_propagates MediatorSpec.observedBroken
           (MediatorSpec.request MediatorSpec.SyncRequest)
           MediatorSpec.SyncRequestHandler MediatorSpec.throwingRequestHandler
           [MediatorSpec.cleanupPassage; MediatorSpec.loggingPassage]
           (Error "handler failed") MediatorSpec.start
           {| calls := [InjectorGet MediatorSpec.SyncRequestHandler;
                        Handle MediatorSpec.SyncRequestHandler
                          (MediatorSpec.request MediatorSpec.SyncRequest)];
              app := ["handler called"] |}).
  - vm_compute. reflexivity.
  - vm_compute. reflexivity.
  - constructor; [|constructor; [|constructor]].
    + intros request next w e w' Hnext. simpl in *. by rewrite Hnext.
    + intros request next w e w' Hnext. simpl in *. unfold bind.
      by rewrite Hnext.
  - vm_compute. reflexivity.
Defined.

Lemma getHandler_unprovided {T U : Type} (this : Mediator T U) (request : Instance)
    (handlerType : Class) (w : World U) :
  requestHandlerMap this !! constructor request = Some handlerType →
  injector this handlerType = None →
  getHandler this request w
  = (Throw (NullInjectorError handlerType), resolved handlerType w).
Proof.
  intros Hmap Hinj. unfold getHandler, injector_get, bind, spy. by rewrite Hmap, Hinj.
Qed.

(** When the injector has no provider for the handler class of a
    registered request type, its error reaches the caller of [send] and of
    [sendSimple] and rejects the promise of [sendAsync], whatever the
    behaviors are: the injector has been asked once and nothing else has
    happened. *)
Theorem missing_provider_propagates {T U : Type} (this : Mediator T U)
    (request : Instance) (handlerType : Class) (w : World U) :
  requestHandlerMap this !! constructor request = Some handlerType →
  injector this handlerType = None →
  send this request w = (Throw (NullInjectorError handlerType), resolved handlerType w)
  ∧ sendSimple this request w
    = (Throw (NullInjectorError handlerType), resolved handlerType w)
  ∧ sendAsync this request w
    = (Normal (PromiseOf (Rejected (NullInjectorError handlerType))),
       resolved handlerType w).
Proof.
  intros Hmap Hinj.
  pose proof (getHandler_unprovided this request handlerType w Hmap Hinj) as Hget.
  assert (send this request w
          = (Throw (NullInjectorError handlerType), resolved handlerType w)) as Hsend.
  { unfold send, bind. by rewrite Hget. }
  split; [exact Hsend|split].
  - unfold sendSimple, bind. by rewrite Hget.
  - unfold sendAsync, async, bind. by rewrite Hsend.
Qed.

Lemma missing_provider_propagates_witness :
  send MediatorSpec.unprovided (MediatorSpec.request MediatorSpec.SyncRequest)
    MediatorSpec.start
  = (Throw (Error "No provider for SyncRequestHandler!"),
     {| calls := [InjectorGet MediatorSpec.SyncRequestHandler]; app := [] |})
  ∧ sendSimple MediatorSpec.unprovided (MediatorSpec.request MediatorSpec.SyncRequest)
      MediatorSpec.start
    = (Throw (Error "No provider for SyncRequestHandler!"),
       {| calls := [InjectorGet MediatorSpec.SyncRequestHandler]; app := [] |})
  ∧ sendAsync MediatorSpec.unprovided (MediatorSpec.request MediatorSpec.SyncRequest)
      MediatorSpec.start
    = (Normal (PromiseOf (Rejected (Error "No provider for SyncRequestHandler!"))),
       {| calls := [InjectorGet MediatorSpec.SyncRequestHandler]; app := [] |}).
Proof.
  apply (missing_provider_propagates MediatorSpec.unprovided
           (MediatorSpec.request MediatorSpec.SyncRequest)
           MediatorSpec.SyncRequestHandler MediatorSpec.start).
  - vm_compute. reflexivity.
  - reflexivity.
Defined.

(** Turning a promise into an observable and taking the first value of
    that observable gives the promise back. *)
Lemma firstValueFrom_from {T : Type} (p : PromiseState T) :
  firstValueFrom (ObservableOf (rx_from p)) = p.
Proof. by destruct p. Qed.

(** Behind behaviors that call their continuation once and return the
    result it returns, [send] turns the promise of a handler into an
    observable made from it, and [sendAsync] returns a promise that
    settles as the promise of the handler does, fulfilled, rejected or
    never; an observable of the handler is returned by [send] as it
    is. *)
Theorem deferred_results_normalized {T U : Type} (this : Mediator T U) (request : Instance)
    (handlerType : Class) (handler : Handler T U) (passages : list (Passage T U))
    (w : World U) :
  requestHandlerMap this !! constructor request = Some handlerType →
  injector this handlerType = Some handler →
  Returns (pipelineBehaviors this) passages →
  (∀ p w',
     handler_handle handler request (called handlerType handler request passages w)
     = (Normal (PromiseOf p), w') →
     send this request w
     = (Normal (ObservableOf (rx_from p)),
        leaving request passages (resolved handlerType w) (ObservableOf (rx_from p)) w')
     ∧ sendAsync this request w
       = (Normal (PromiseOf p),
          leaving request passages (resolved handlerType w)
            (ObservableOf (rx_from p)) w'))
  ∧ (∀ o w',
       handler_handle handler request (called handlerType handler request passages w)
       = (Normal (ObservableOf o), w') →
       send this request w
       = (Normal (ObservableOf o),
          leaving request passages (resolved handlerType w) (ObservableOf o) w')).
Proof.
  intros Hmap Hinj Hreturns. split.
  - intros p w' Hhandle.
    pose proof (send_returns _ _ _ _ _ _ _ _ Hmap Hinj Hreturns Hhandle) as Hsend.
    simpl in Hsend. split; [exact Hsend|].
    unfold sendAsync, async, bind. rewrite Hsend. unfold ret.
    by rewrite firstValueFrom_from.
  - intros o w' Hhandle.
    exact (send_returns _ _ _ _ _ _ _ _ Hmap Hinj Hreturns Hhandle).
Qed.

Lemma deferred_results_normalized_witness :
  send MediatorSpec.observed (MediatorSpec.request MediatorSpec.AsyncPromiseRequest)
    MediatorSpec.start
  = (Normal (ObservableOf
               (rx_from (Fulfilled (MediatorSpec.str "async promise response")))),
     {| calls := [InjectorGet MediatorSpec.AsyncPromiseRequestHandler;
                  Handle MediatorSpec.AsyncPromiseRequestHandler
                    (MediatorSpec.request MediatorSpec.AsyncPromiseRequest)];
        app := ["observable"; "finally"] |})
  ∧ sendAsync MediatorSpec.observed (MediatorSpec.request MediatorSpec.AsyncPromiseRequest)
      MediatorSpec.start
    = (Normal (PromiseOf (Fulfilled (MediatorSpec.str "async promise response"))),
       {| calls := [InjectorGet MediatorSpec.AsyncPromiseRequestHandler;
                    Handle MediatorSpec.AsyncPromiseRequestHandler
                      (MediatorSpec.request MediatorSpec.AsyncPromiseRequest)];
          app := ["observable"; "finally"] |}).
Proof.
  destruct (deferred_results_normalized MediatorSpec.observed
              (MediatorSpec.request MediatorSpec.AsyncPromiseRequest)
              MediatorSpec.AsyncPromiseRequestHandler
              MediatorSpec.asyncPromiseRequestHandler
              [MediatorSpec.cleanupPassage; MediatorSpec.loggingPassage]
              MediatorSpec.start)
    as [Hpromise _].
  - vm_compute. reflexivity.
  - vm_compute. reflexivity.
  - constructor; [|constructor; [|constructor]].
    + intros request next w result w' Hnext. simpl in *. by rewrite Hnext.
    + intros request next w result w' Hnext. simpl in *. unfold bind.
      by rewrite Hnext.
  - apply (Hpromise (Fulfilled (MediatorSpec.str "async promise response"))
             {| calls := [InjectorGet MediatorSpec.AsyncPromiseRequestHandler;
                          Handle MediatorSpec.AsyncPromiseRequestHandler
                            (MediatorSpec.request MediatorSpec.AsyncPromiseRequest)];
                app := [] |}).
    vm_compute. reflexivity.
Defined.

(** Behind behaviors of the shape of [behavior1], whose parts before and
    after [next()] update the application state without throwing and
    without looking at the result, [sendSimple] leaves the world [send]
    leaves, whether the dispatch succeeds or fails: the same calls on the
    injector and the handler, the same application state. *)
Theorem entry_points_same_effects {T U : Type} (this : Mediator T U) (request : Instance)
    (wraps : list (Wrap U)) (w : World U) :
  Wrapped (pipelineBehaviors this) wraps →
  (sendSimple this request w).2 = (send this request w).2.
Proof.
  intros Hwrapped.
  destruct (requestHandlerMap this !! constructor request) as [handlerType|] eqn:Hmap.
  - destruct (injector this handlerType) as [handler|] eqn:Hinj.
    + rewrite (send_wrapped _ _ _ _ wraps _ Hmap Hinj Hwrapped).
      rewrite (sendSimple_wrapped _ _ _ _ wraps _ Hmap Hinj Hwrapped).
      by destruct (handler_handle handler request _) as [[[v|p|o]|e] w'].
    + unfold send, sendSimple, bind.
      by rewrite (getHandler_unprovided this request handlerType w Hmap Hinj).
  - unfold send, sendSimple, bind. by rewrite getHandler_missing.
Qed.

Lemma entry_points_same_effects_witness :
  (sendSimple MediatorSpec.mediator
     (MediatorSpec.request MediatorSpec.AsyncObservableRequest) MediatorSpec.start).2
  = (send MediatorSpec.mediator
       (MediatorSpec.request MediatorSpec.AsyncObservableRequest) MediatorSpec.start).2.
Proof.
  apply (entry_points_same_effects MediatorSpec.mediator
           (MediatorSpec.request MediatorSpec.AsyncObservableRequest)
           [MediatorSpec.behavior1; MediatorSpec.behavior2] MediatorSpec.start).
  repeat constructor.
Defined.

(** With no behavior registered, be it that the host provides none
    ([null]) or an empty array, [send] and [sendSimple] resolve the handler
    and call it directly. *)
Theorem no_behaviors_direct_call {T U : Type} (this : Mediator T U) (request : Instance)
    (w : World U) :
  pipelineBehaviors this = None ∨ pipelineBehaviors this = Some [] →
  send this request w
  = (handler <- getHandler this request ;;
     result <- call_handle handler request ;;
     ret (normalized result)) w
  ∧ sendSimple this request w
    = (handler <- getHandler this request ;;
       result <- call_handle handler request ;;
       if isObservable result || instanceofPromise result
       then throw SynchronousContractViolation
       else ret result) w.
Proof.
  intros Hnone.
  assert (default [] (pipelineBehaviors this) = []) as Hempty
    by (by destruct Hnone as [-> | ->]).
  unfold send, sendSimple, compose, reduceRight. rewrite Hempty. simpl.
  unfold bind. destruct (getHandler this request w) as [[handler|e] w1]; [|done].
  split; [|done].
  destruct (call_handle handler request w1) as [[[v|p|o]|e] w2]; done.
Qed.

Lemma no_behaviors_direct_call_witness :
  send MediatorSpec.bare (MediatorSpec.request MediatorSpec.SyncRequest) MediatorSpec.start
  = (handler <- getHandler MediatorSpec.bare (MediatorSpec.request MediatorSpec.SyncRequest) ;;
     result <- call_handle handler (MediatorSpec.request MediatorSpec.SyncRequest) ;;
     ret (normalized result)) MediatorSpec.start
  ∧ sendSimple MediatorSpec.bare (MediatorSpec.request MediatorSpec.SyncRequest)
      MediatorSpec.start
    = (handler <- getHandler MediatorSpec.bare
                    (MediatorSpec.request MediatorSpec.SyncRequest) ;;
       result <- call_handle handler (MediatorSpec.request MediatorSpec.SyncRequest) ;;
       if isObservable result || instanceofPromise result
       then throw SynchronousContractViolation
       else ret result) MediatorSpec.start.
Proof.
  apply (no_behaviors_direct_call MediatorSpec.bare
           (MediatorSpec.request MediatorSpec.SyncRequest) MediatorSpec.start).
  left. reflexivity.
Defined.

(** A behavior whose result does not depend on its continuation cuts the
    chain where it stands: the behaviors registered before it run around
    its result, and neither the behaviors registered after it nor the
    handler are part of the chain. *)
Theorem short_circuit_cuts_chain {T U : Type} (this : Mediator T U) (request : Instance)
    (outer inner : list (IPipelineBehavior T U)) (behavior : IPipelineBehavior T U)
    (outcome : M U (JsValue T)) (handle : RequestHandlerDelegate T U) :
  pipelineBehaviors this = Some (outer ++ behavior :: inner) →
  (∀ next, behavior_handle behavior request next = outcome) →
  compose this request handle = nest request outer (fun _ => outcome).
Proof.
  intros Hbehaviors Hignores. rewrite compose_nest, Hbehaviors.
  unfold nest. cbn [default from_option id]. rewrite foldr_app. simpl.
  by rewrite Hignores.
Qed.

Lemma short_circuit_cuts_chain_witness :
  compose MediatorSpec.cached (MediatorSpec.request MediatorSpec.SyncRequest)
    (fun _ => throw (Error "never called"))
  = nest (MediatorSpec.request MediatorSpec.SyncRequest) []
      (fun _ => ret (ObservableOf (rx_of (MediatorSpec.str "cached response")))).
Proof.
  apply (short_circuit_cuts_chain MediatorSpec.cached
           (MediatorSpec.request MediatorSpec.SyncRequest)
           [] [around MediatorSpec.behavior2] MediatorSpec.cache).
  - reflexivity.
  - intros next. reflexivity.
Defined.

(** ** Publication, continued *)

Section PublishMore.
Context {T U : Type}.
Implicit Types (this that : Mediator T U) (notification : Instance) (w : World U).

Lemma forEach_ext {A} (f g : A → M U unit) (l : list A) w :
  (∀ x w1, f x w1 = g x w1) →
  forEach l f w = forEach l g w.
Proof.
  intros Hext. revert w. induction l as [|x l IH]; intros w; [done|].
  simpl. unfold bind. rewrite Hext. destruct (g x w) as [[[]|e] w1]; [|done].
  apply IH.
Qed.

Lemma forEach_notify_all this notification (handlerTypes : list Class)
    (step : Class → U → U) w :
  (∀ c, c ∈ handlerTypes →
     ∃ h, injector this c = Some h ∧ handler_class h = c
          ∧ ∀ w1, ∃ r, handler_handle h notification w1
                       = (Normal r, {| calls := calls w1; app := step c (app w1) |})) →
  forEach handlerTypes (notify this notification) w
  = (Normal tt,
     {| calls := calls w ++ published notification handlerTypes;
        app := fold_left (fun u c => step c u) handlerTypes (app w) |}).
Proof.
  revert w. induction handlerTypes as [|c handlerTypes IH]; intros w Hall.
  - simpl. unfold ret. rewrite app_nil_r. by destruct w.
  - destruct (Hall c) as (h & Hinj & Hclass & Hhandle); [set_solver|].
    simpl. unfold bind at 1. unfold notify, injector_get, call_handle, bind, spy, ret.
    rewrite Hinj, Hclass. simpl.
    destruct (Hhandle {| calls := (calls w ++ [InjectorGet c]) ++ [Handle c notification];
                         app := app w |}) as [r ->].
    rewrite IH by (intros c' Hc'; apply Hall; set_solver). simpl.
    by rewrite <- !app_assoc.
Qed.
End PublishMore.

(** When the injector resolves every class of the list to an instance of
    that class and no handler throws, whatever the handlers return,
    [publish] resolves and calls each handler of the list once, in list
    order, each in the application state its predecessor left, and returns
    normally; for an empty list it does nothing. *)
Theorem publish_runs_every_handler {T U : Type} (this : Mediator T U)
    (notification : Instance) (handlerTypes : list Class) (step : Class → U → U)
    (w : World U) :
  notificationHandlerMap this !! constructor notification = Some handlerTypes →
  (∀ c, c ∈ handlerTypes →
     ∃ h, injector this c = Some h ∧ handler_class h = c
          ∧ ∀ w1, ∃ r, handler_handle h notification w1
                       = (Normal r, {| calls := calls w1; app := step c (app w1) |})) →
  publish this notification w
  = (Normal tt,
     {| calls := calls w ++ published notification handlerTypes;
        app := fold_left (fun u c => step c u) handlerTypes (app w) |}).
Proof.
  intros Hmap Hall. unfold publish. rewrite Hmap. by apply forEach_notify_all.
Qed.

Lemma publish_runs_every_handler_witness :
  publish MediatorSpec.mediator (MediatorSpec.request MediatorSpec.TestNotification)
    MediatorSpec.start
  = (Normal tt,
     {| calls := [InjectorGet MediatorSpec.TestNotificationHandler;
                  Handle MediatorSpec.TestNotificationHandler
                    (MediatorSpec.request MediatorSpec.TestNotification);
                  InjectorGet MediatorSpec.AnotherTestNotificationHandler;
                  Handle MediatorSpec.AnotherTestNotificationHandler
                    (MediatorSpec.request MediatorSpec.TestNotification)];
        app := ["first"; "second"] |}).
Proof.
  apply (publish_runs_every_handler MediatorSpec.mediator
           (MediatorSpec.request MediatorSpec.TestNotification)
           [MediatorSpec.TestNotificationHandler;
            MediatorSpec.AnotherTestNotificationHandler]
           MediatorSpec.pushed MediatorSpec.start).
  - vm_compute. reflexivity.
  - intros c Hc. apply elem_of_cons in Hc as [->|Hc].
    + exists MediatorSpec.testNotificationHandler.
      split; [vm_compute; reflexivity|]. split; [reflexivity|].
      intros w1. exists (Plain MediatorSpec.undefined). reflexivity.
    + apply list_elem_of_singleton in Hc as ->.
      exists MediatorSpec.anotherTestNotificationHandler.
      split; [vm_compute; reflexivity|]. split; [reflexivity|].
      intros w1. exists (Plain MediatorSpec.undefined). reflexivity.
Defined.

(** When the injector has no provider for a class of the list, [publish]
    throws its error once the handlers before that class have run: the
    injector has been asked for the class, and the classes after it are
    neither resolved nor called. *)
Theorem publish_missing_provider {T U : Type} (this : Mediator T U)
    (notification : Instance) (before after : list Class) (missing : Class)
    (w w1 : World U) :
  notificationHandlerMap this !! constructor notification
  = Some (before ++ missing :: after) →
  forEach before (notify this notification) w = (Normal tt, w1) →
  injector this missing = None →
  publish this notification w = (Throw (NullInjectorError missing), resolved missing w1).
Proof.
  intros Hmap Hbefore Hinj. unfold publish. rewrite Hmap.
  apply (forEach_throw _ _ _ _ _ _ w1); [exact Hbefore|].
  unfold notify, injector_get, bind, spy. by rewrite Hinj.
Qed.

Lemma publish_missing_provider_witness :
  publish MediatorSpec.unprovided (MediatorSpec.request MediatorSpec.TestNotification)
    MediatorSpec.start
  = (Throw (Error "No provider for TestNotificationHandler!"),
     {| calls := [InjectorGet MediatorSpec.TestNotificationHandler]; app := [] |}).
Proof.
  apply (publish_missing_provider MediatorSpec.unprovided
           (MediatorSpec.request MediatorSpec.TestNotification)
           [] [MediatorSpec.AnotherTestNotificationHandler]
           MediatorSpec.TestNotificationHandler MediatorSpec.start MediatorSpec.start).
  - vm_compute. reflexivity.
  - reflexivity.
  - reflexivity.
Defined.

(** [publish] reads the notification registry and the injector and
    nothing else: two mediators that agree on these publish alike, whatever
    their request registries and pipeline behaviors are.  No behavior ever
    runs around a notification handler. *)
Theorem publish_ignores_pipeline {T U : Type} (this that : Mediator T U)
    (notification : Instance) (w : World U) :
  notificationHandlerMap this = notificationHandlerMap that →
  (∀ c, injector this c = injector that c) →
  publish this notification w = publish that notification w.
Proof.
  intros Hmap Hinj. unfold publish. rewrite Hmap.
  destruct (notificationHandlerMap that !! constructor notification) as [handlerTypes|];
    [|done].
  apply forEach_ext. intros c w1. unfold notify, injector_get. by rewrite Hinj.
Qed.

Lemma publish_ignores_pipeline_witness :
  publish MediatorSpec.mediator (MediatorSpec.request MediatorSpec.TestNotification)
    MediatorSpec.start
  = publish MediatorSpec.bare (MediatorSpec.request MediatorSpec.TestNotification)
      MediatorSpec.start.
Proof.
  apply (publish_ignores_pipeline MediatorSpec.mediator MediatorSpec.bare).
  - reflexivity.
  - intros c. reflexivity.
Defined.

(** ** From the registry builder to the dispatcher *)

(** On a mediator whose request registry is the one [provideMediator]
    provides, [getHandler] asks the injector for the last class of the
    input that declares the type of the request; when no class of the
    input declares it, the three entry points fail as on any unregistered
    type. *)
Theorem provided_registry_resolves {T U : Type} (store : Reflect.Store)
    (handlers : list Class) (this : Mediator T U) (request : Instance) (w : World U) :
  (∀ r, requestHandlerMap this !! r
        = providedRequestHandler (provideMediator store handlers) r) →
  (∀ before handler after,
     handlers = before ++ handler :: after →
     requestOf store handler = Some (constructor request) →
     Forall (λ h, requestOf store h ≠ Some (constructor request)) after →
     getHandler this request w = injector_get this handler w)
  ∧ (Forall (λ h, requestOf store h ≠ Some (constructor request)) handlers →
     send this request w = (Throw (HandlerNotFound request), w)
     ∧ sendSimple this request w = (Throw (HandlerNotFound request), w)
     ∧ sendAsync this request w
       = (Normal (PromiseOf (Rejected (HandlerNotFound request))), w)).
Proof.
  intros Hprovided. split.
  - intros before handler after -> Hreq Hafter. unfold getHandler.
    by rewrite Hprovided, provided_request, (request_registry_last _ _ _ _ _ Hreq Hafter).
  - intros Hnone.
    assert (getHandler this request w = (Throw (HandlerNotFound request), w)) as Hget.
    { apply getHandler_missing.
      by rewrite Hprovided, provided_request, (request_registry_none _ _ _ Hnone). }
    assert (send this request w = (Throw (HandlerNotFound request), w)) as Hsend.
    { unfold send, bind. by rewrite Hget. }
    split; [exact Hsend|split].
    + unfold sendSimple, bind. by rewrite Hget.
    + unfold sendAsync, async, bind. by rewrite Hsend.
Qed.

Lemma provided_registry_resolves_witness :
  getHandler MediatorSpec.wired (MediatorSpec.request ProvidersSpec.TestRequest)
    MediatorSpec.start
  = injector_get MediatorSpec.wired ProvidersSpec.TestRequestHandler MediatorSpec.start.
Proof.
  destruct (provided_registry_resolves ProvidersSpec.store ProvidersSpec.handlers
              MediatorSpec.wired (MediatorSpec.request ProvidersSpec.TestRequest)
              MediatorSpec.start) as [Hresolves _].
  - intros r. rewrite provided_request. reflexivity.
  - apply (Hresolves [] ProvidersSpec.TestRequestHandler
             [ProvidersSpec.AnotherTestRequestHandler; ProvidersSpec.TestNotificationHandler;
              ProvidersSpec.AnotherTestNotificationHandler;
              ProvidersSpec.YetAnotherNotificationHandler; ProvidersSpec.NonHandlerClass]).
    + reflexivity.
    + vm_compute. reflexivity.
    + repeat constructor; vm_compute; discriminate.
Defined.

(** On a mediator whose notification registry is the one
    [provideMediator] provides, [publish] visits the classes of the input
    that declare the type of the notification, in input order, and no
    other class. *)
Theorem provided_registry_publishes {T U : Type} (store : Reflect.Store)
    (handlers : list Class) (this : Mediator T U) (notification : Instance)
    (w : World U) :
  (∀ n, notificationHandlerMap this !! n
        = providedNotificationHandlers (provideMediator store handlers) n) →
  publish this notification w
  = forEach (filter (λ h, notificationOf store h = Some (constructor notification))
                    handlers)
            (notify this notification) w.
Proof.
  intros Hprovided. unfold publish.
  rewrite Hprovided, provided_notification, notification_registry_filter.
  by destruct (filter _ handlers).
Qed.

Lemma provided_registry_publishes_witness :
  publish MediatorSpec.wired (MediatorSpec.request ProvidersSpec.TestNotification)
    MediatorSpec.start
  = forEach (filter (λ h, notificationOf ProvidersSpec.store h
                          = Some ProvidersSpec.TestNotification) ProvidersSpec.handlers)
            (notify MediatorSpec.wired (MediatorSpec.request ProvidersSpec.TestNotification))
            MediatorSpec.start.
Proof.
  apply (provided_registry_publishes ProvidersSpec.store ProvidersSpec.handlers
           MediatorSpec.wired (MediatorSpec.request ProvidersSpec.TestNotification)
           MediatorSpec.start).
  intros n. rewrite provided_notification. reflexivity.
Defined.

(** ** The renaming rule of the schematics *)

Section Strings.
Implicit Types (a b s : string).

Lemma string_length_app a b :
  String.length (a +:+ b) = String.length a + String.length b.
Proof. induction a as [|c a IH]; simpl; [done|]. by rewrite IH. Qed.

Lemma substring_whole s : String.substring 0 (String.length s) s = s.
Proof. induction s as [|c s IH]; simpl; [done|]. by rewrite IH. Qed.

Lemma substring_prefix a b : String.substring 0 (String.length a) (a +:+ b) = a.
Proof.
  induction a as [|c a IH]; simpl; [by destruct b|]. by rewrite IH.
Qed.

Lemma substring_suffix a b :
  String.substring (String.length a) (String.length b) (a +:+ b) = b.
Proof. induction a as [|c a IH]; simpl; [apply substring_whole|exact IH]. Qed.

Lemma substring_split s (n : nat) :
  n ≤ String.length s →
  String.substring 0 n s +:+ String.substring n (String.length s - n) s = s.
Proof.
  revert n. induction s as [|c s IH]; intros [|n] Hn; simpl in *.
  - done.
  - lia.
  - by rewrite substring_whole.
  - change (String c (String.substring 0 n s
                      +:+ String.substring n (String.length s - n) s) = String c s).
    f_equal. apply IH. lia.
Qed.

(** [s.slice(0, -n)] drops the last [n] characters. *)
Lemma slice_drop_last s (n : nat) :
  0 < n ≤ String.length s →
  Schematics.slice s 0 (- Z.of_nat n) = String.substring 0 (String.length s - n) s.
Proof.
  intros Hn. unfold Schematics.slice.
  rewrite decide_False by lia. rewrite decide_True by lia.
  rewrite Z.min_l by lia. simpl. f_equal. lia.
Qed.
End Strings.

(** The callback of [tree.visit] renames exactly the paths that end in
    [.template], each to the path without that ending: a path is renamed
    to [newPath] if and only if it is [newPath] followed by [.template].
    Only one ending is removed, and no other path is touched. *)
Theorem template_suffix_stripped (path newPath : string) :
  Schematics.renameTemplate path = Some newPath ↔ path = newPath +:+ ".template".
Proof.
  unfold Schematics.renameTemplate, Schematics.endsWith. split.
  - destruct (decide (String.length ".template" ≤ String.length path)) as [Hlen|]; [|done].
    case_bool_decide as Hends; [|done]. intros [= <-].
    rewrite slice_drop_last by (simpl in *; lia).
    simpl in Hlen, Hends. simpl.
    etrans; [symmetry; apply (substring_split path (String.length path - 9)); lia|].
    f_equal.
    replace (String.length path - (String.length path - 9)) with 9 by lia.
    exact Hends.
  - intros ->. rewrite string_length_app.
    rewrite decide_True by lia.
    replace (String.length newPath + String.length ".template"
             - String.length ".template") with (String.length newPath) by lia.
    rewrite substring_suffix, bool_decide_true by done.
    rewrite slice_drop_last by (rewrite string_length_app; simpl; lia).
    rewrite string_length_app.
    replace (String.length newPath + String.length ".template"
             - String.length ".template") with (String.length newPath) by lia.
    by rewrite substring_prefix.
Qed.

Lemma template_suffix_stripped_witness :
  Schematics.renameTemplate "__name@dasherize__.query.ts.template"
  = Some "__name@dasherize__.query.ts".
Proof.
  apply (template_suffix_stripped "__name@dasherize__.query.ts.template"
           "__name@dasherize__.query.ts").
  reflexivity.
Defined.
